(** * OBIGGRILLS API server: request handlers over a document store

    A shallow embedding of the Express handlers of the API server (the
    user, product and order routes, together with the Mongoose schemas they
    persist through), followed by the properties of the handlers.

    Conventions of the model.
    - JavaScript strings are [string]s; [toLowerCase] and [trim] act on the
      ASCII letters and the ASCII white space of a string.
    - JavaScript numbers are [num]: [NaN], the two infinities, or a finite
      value carried as an exact rational.  The handlers never compute with
      numbers, they parse them and test them; binary64 rounding, overflow
      and the sign of zero are outside the model.
    - [await]ed store calls are state passing over [Store]; a handler is a
      function from the store and the request to a response and a store.
      [Date.now()] is an argument of the handlers that write.
    - The order and product handlers inspect what they are sent, so their
      bodies are raw values ([JsVal]).  The user handlers and the status
      update hand their fields to Mongoose as they are; their bodies are
      taken at the types the schemas give the paths. *)

From Stdlib Require Import String Ascii List Bool Arith ZArith NArith QArith Lia.
From Stdlib Require Import Permutation Sorted.
Import ListNotations.

Local Close Scope Q_scope.
Local Open Scope string_scope.
Local Open Scope nat_scope.

(* ------------------------------------------------------------------ *)
(** ** Strings *)

Module Str.

(** White space removed by [String.prototype.trim] and skipped by
    [parseFloat]: TAB, LF, VT, FF, CR and SPACE. *)
Definition isWhiteSpace (c : ascii) : bool :=
  let n := nat_of_ascii c in
  (((9 <=? n) && (n <=? 13)) || (n =? 32))%nat.

Fixpoint trimStart (s : string) : string :=
  match s with
  | String c r => if isWhiteSpace c then trimStart r else s
  | EmptyString => EmptyString
  end.

Fixpoint trimEnd (s : string) : string :=
  match s with
  | String c r =>
      match trimEnd r with
      | EmptyString => if isWhiteSpace c then EmptyString else String c EmptyString
      | r' => String c r'
      end
  | EmptyString => EmptyString
  end.

(** [s.trim()] *)
Definition trim (s : string) : string := trimEnd (trimStart s).

Definition lowerChar (c : ascii) : ascii :=
  let n := nat_of_ascii c in
  if ((65 <=? n) && (n <=? 90))%nat then ascii_of_nat (n + 32) else c.

(** [s.toLowerCase()] *)
Fixpoint toLowerCase (s : string) : string :=
  match s with
  | String c r => String (lowerChar c) (toLowerCase r)
  | EmptyString => EmptyString
  end.

(** [s.split(' ')[0]]: the part of [s] before its first SPACE, all of [s]
    when it has none. *)
Fixpoint splitSpaceHead (s : string) : string :=
  match s with
  | String c r => if Ascii.eqb c " "%char then EmptyString else String c (splitSpaceHead r)
  | EmptyString => EmptyString
  end.

(** [s.startsWith(p)], returning what follows [p]. *)
Fixpoint stripPrefix (p s : string) : option string :=
  match p, s with
  | EmptyString, _ => Some s
  | String a p', String b s' => if Ascii.eqb a b then stripPrefix p' s' else None
  | String _ _, EmptyString => None
  end.

Definition isEmpty (s : string) : bool :=
  match s with EmptyString => true | _ => false end.

End Str.

(* ------------------------------------------------------------------ *)
(** ** Numbers and [parseFloat] *)

Inductive num : Type :=
| NaN
| Inf (negative : bool)
| Fin (q : Q).

Module Num.

Definition isNaN (n : num) : bool :=
  match n with NaN => true | _ => false end.

Definition isFinite (n : num) : bool :=
  match n with Fin _ => true | _ => false end.

Definition isZero (n : num) : bool :=
  match n with Fin q => (Qnum q =? 0)%Z | _ => false end.

(** ToBoolean on a number: [0] and [NaN] are falsy. *)
Definition truthy (n : num) : bool := negb (isNaN n) && negb (isZero n).

Definition ofZ (z : Z) : num := Fin (inject_Z z).

Definition isDigit (c : ascii) : bool :=
  let n := nat_of_ascii c in ((48 <=? n) && (n <=? 57))%nat.

Definition digitVal (c : ascii) : Z := Z.of_nat (nat_of_ascii c - 48).

(** The longest run of decimal digits at the head of [s], read as a number
    on top of [acc]: the value, how many digits, and the rest of [s]. *)
Fixpoint digits (s : string) (acc : Z) (len : nat) : Z * nat * string :=
  match s with
  | String c r =>
      if isDigit c then digits r (10 * acc + digitVal c)%Z (S len)
      else (acc, len, s)
  | EmptyString => (acc, len, s)
  end.

(** An ExponentPart at the head of [s]: [e] or [E], an optional sign and at
    least one digit; [0] when there is none. *)
Definition exponent (s : string) : Z :=
  match s with
  | String c r =>
      if Ascii.eqb c "e"%char || Ascii.eqb c "E"%char then
        let '(neg, r') :=
          match r with
          | String "-"%char t => (true, t)
          | String "+"%char t => (false, t)
          | _ => (false, r)
          end in
        let '(v, len, _) := digits r' 0%Z 0 in
        match len with
        | O => 0%Z
        | S _ => if neg then (- v)%Z else v
        end
      else 0%Z
  | EmptyString => 0%Z
  end.

(** The unsigned StrDecimalLiteral at the head of [s]. *)
Definition decimal (negative : bool) (s : string) : num :=
  match Str.stripPrefix "Infinity" s with
  | Some _ => Inf negative
  | None =>
      let '(ip, ilen, r1) := digits s 0%Z 0 in
      let '(m, flen, r2) :=
        match r1 with
        | String "."%char t =>
            let '(m, flen, r2) := digits t ip 0 in (m, flen, r2)
        | _ => (ip, O, r1)
        end in
      match (ilen + flen)%nat with
      | O => NaN
      | S _ =>
          let e := (exponent r2 - Z.of_nat flen)%Z in
          let q := Qred (inject_Z m * Qpower (10 # 1) e)%Q in
          Fin (if negative then Qopp q else q)
      end
  end.

(** [parseFloat(s)] for a string [s]: leading white space is skipped, then
    the longest prefix that is a decimal literal is read; [NaN] when there is
    none. *)
Definition parseFloatStr (s : string) : num :=
  match Str.trimStart s with
  | String "-"%char r => decimal true r
  | String "+"%char r => decimal false r
  | r => decimal false r
  end.

End Num.

(* ------------------------------------------------------------------ *)
(** ** Request values *)

(** A value of a decoded request body.  [JUndefined] is what reading a
    property that is not there gives. *)
#[local] Unset Elimination Schemes.
Inductive JsVal : Type :=
| JUndefined
| JNull
| JBool (b : bool)
| JNum (n : num)
| JStr (s : string)
| JArr (l : list JsVal)
| JObj (fields : list (string * JsVal)).
#[local] Set Elimination Schemes.

Module Js.

(** ToBoolean: what [!v], [v || w] and [if (v)] test. *)
Definition truthy (v : JsVal) : bool :=
  match v with
  | JUndefined | JNull => false
  | JBool b => b
  | JNum n => Num.truthy n
  | JStr s => negb (Str.isEmpty s)
  | JArr _ | JObj _ => true
  end.

(** [v || w] *)
Definition or (v w : JsVal) : JsVal := if truthy v then v else w.

(** The value bound to [k] in the fields of an object; when a key occurs
    twice in the JSON text the later occurrence is the one that counts. *)
Fixpoint lookup (k : string) (fields : list (string * JsVal)) : JsVal :=
  match fields with
  | [] => JUndefined
  | (k', v) :: rest =>
      match lookup k rest with
      | JUndefined => if String.eqb k k' then v else JUndefined
      | w => w
      end
  end.

(** [v.k] (or [v[k]]) for a [v] that is neither [null] nor [undefined]; the
    handlers read properties of values they have tested to be truthy. *)
Definition get (v : JsVal) (k : string) : JsVal :=
  match v with
  | JObj fields => lookup k fields
  | JArr l => if String.eqb k "length" then JNum (Num.ofZ (Z.of_nat (List.length l))) else JUndefined
  | JStr s => if String.eqb k "length" then JNum (Num.ofZ (Z.of_nat (String.length s))) else JUndefined
  | _ => JUndefined
  end.

(** [v === 0] *)
Definition isZero (v : JsVal) : bool :=
  match v with JNum n => Num.isZero n | _ => false end.

(** [typeof v === 'string'], with the string when it is one. *)
Definition asString (v : JsVal) : option string :=
  match v with JStr s => Some s | _ => None end.

(** [parseFloat(v)]: [v] is converted to a string and the string is parsed.
    A number prints as a literal that reads back as itself.  An array prints
    as its elements joined by commas, and a comma ends a literal, so only
    the first element is read.  [undefined], [null], booleans and objects
    print as words that are no literal. *)
Fixpoint parseFloat (v : JsVal) : num :=
  match v with
  | JNum n => n
  | JStr s => Num.parseFloatStr s
  | JArr (x :: _) => parseFloat x
  | _ => NaN
  end.

(** [parseFloat(v) || parseFloat(w)] and [parseFloat(v) || 0]: the first
    number unless it is falsy. *)
Definition numOr (a b : num) : num := if Num.truthy a then a else b.

End Js.

(* ------------------------------------------------------------------ *)
(** ** Documents: the three Mongoose schemas *)

(** ObjectIds are 96-bit numbers; a new document gets the next one of the
    store.  Times are milliseconds. *)
Definition ObjectId := N.
Definition Time := N.

Module User.

Record Address : Type := {
  addr_name : string;
  address : string;
  isDefault : bool
}.

Record Preferences : Type := {
  favoriteItems : list string;
  deliveryInstructions : string
}.

Record t : Type := {
  _id : ObjectId;
  name : string;
  nickname : string;
  email : string;
  phone : string;
  addresses : list Address;
  preferences : Preferences;
  createdAt : Time;
  updatedAt : Time
}.

Definition noPreferences : Preferences :=
  {| favoriteItems := []; deliveryInstructions := "" |}.

(** The setters of the [email] path, [lowercase: true] and [trim: true].
    Mongoose runs them on a value assigned to the path and on a value the
    path is queried by. *)
Definition emailSetters (e : string) : string := Str.trim (Str.toLowerCase e).

End User.

Module Product.

Record t : Type := {
  _id : ObjectId;
  name : string;
  description : string;
  price : num;
  category : string;
  imageUrl : string;
  createdAt : Time;
  updatedAt : Time
}.

End Product.

Module Order.

Record Customer : Type := {
  name : string;
  address : string;
  phone : string;
  email : string
}.

Record Item : Type := {
  item_id : option string;
  item_name : option string;
  item_price : option num;
  quantity : option num
}.

Record Location : Type := {
  loc_id : option string;
  loc_name : option string;
  fee : option num
}.

Record t : Type := {
  _id : ObjectId;
  customer : Customer;
  items : list Item;
  subtotal : num;
  deliveryFee : num;
  deliveryLocation : option Location;
  total : num;
  paymentMethod : string;
  paymentReference : option string;
  paymentStatus : option string;
  orderReference : option string;
  fulfilled : bool;
  createdAt : Time;
  updatedAt : Time
}.

End Order.

(** The collections, and the counter new ObjectIds come from. *)
Record Store : Type := {
  users : list User.t;
  products : list Product.t;
  orders : list Order.t;
  nextId : ObjectId
}.

Definition emptyStore : Store :=
  {| users := []; products := []; orders := []; nextId := 1%N |}.

(* ------------------------------------------------------------------ *)
(** ** The store operations the handlers call *)

(** [Model.find().sort({ createdAt: -1 })]: newest first; of documents
    created at the same time the one stored later comes first. *)
Section NewestFirst.
Context {A : Type} (key : A -> Time).

Fixpoint insertNewest (x : A) (l : list A) : list A :=
  match l with
  | [] => [x]
  | y :: r => if (key y <? key x)%N then x :: l else y :: insertNewest x r
  end.

Definition sortNewestFirst (l : list A) : list A :=
  fold_right insertNewest [] l.
End NewestFirst.

Module ObjId.

Definition hexVal (c : ascii) : option N :=
  let n := nat_of_ascii c in
  if ((48 <=? n) && (n <=? 57))%nat then Some (N.of_nat (n - 48))
  else if ((97 <=? n) && (n <=? 102))%nat then Some (N.of_nat (n - 87))
  else if ((65 <=? n) && (n <=? 70))%nat then Some (N.of_nat (n - 55))
  else None.

Fixpoint hex (s : string) (acc : N) : option N :=
  match s with
  | EmptyString => Some acc
  | String c r =>
      match hexVal c with
      | Some d => hex r (16 * acc + d)%N
      | None => None
      end
  end.

(** The ObjectId a string stands for: 24 hexadecimal digits, in either
    case. *)
Definition parse (s : string) : option ObjectId :=
  if (String.length s =? 24)%nat then hex s 0%N else None.

(** [mongoose.Types.ObjectId.isValid(id)] on a route parameter. *)
Definition isValid (s : string) : bool :=
  match parse s with Some _ => true | None => false end.

End ObjId.

(** What Mongoose makes of the raw values the order handler hands to the
    String paths, to the [items] array and to [deliveryLocation].  Mongoose
    is a dependency of the server, so its casts are taken as they come:
    [None] is a CastError, [Some None] a path left [null]. *)
Record Casters : Type := {
  castString : JsVal -> option (option string);
  castItems : JsVal -> option (list Order.Item);
  castLocation : JsVal -> option (option Order.Location)
}.

(** SchemaNumber's cast of a number: [NaN] is a CastError. *)
Definition castNumber (n : num) : option num :=
  if Num.isNaN n then None else Some n.

(** A String path with [required: true]: cast, then neither [null] nor
    empty. *)
Definition requiredString (M : Casters) (v : JsVal) : option string :=
  match castString M v with
  | Some (Some s) => if Str.isEmpty s then None else Some s
  | _ => None
  end.

Module Users.

(** [User.findOne({ email: e })] *)
Definition findOne (s : Store) (e : string) : option User.t :=
  find (fun u => String.eqb (User.email u) (User.emailSetters e)) (users s).

(** [new User({...}).save()]: [email] is required and unique.  [None] is
    the rejected promise. *)
Definition create (now : Time) (s : Store) (name nickname email phone : string)
  : option (User.t * Store) :=
  let e := User.emailSetters email in
  if Str.isEmpty e then None
  else if existsb (fun u => String.eqb (User.email u) e) (users s) then None
  else
    let u := {| User._id := nextId s; User.name := name; User.nickname := nickname;
                User.email := e; User.phone := phone; User.addresses := [];
                User.preferences := User.noPreferences;
                User.createdAt := now; User.updatedAt := now |} in
    Some (u, {| users := users s ++ [u]; products := products s;
                orders := orders s; nextId := N.succ (nextId s) |}).

Fixpoint sameList {A : Type} (eqb : A -> A -> bool) (l m : list A) : bool :=
  match l, m with
  | [], [] => true
  | x :: l', y :: m' => eqb x y && sameList eqb l' m'
  | _, _ => false
  end.

Definition sameAddress (a b : User.Address) : bool :=
  String.eqb (User.addr_name a) (User.addr_name b)
  && String.eqb (User.address a) (User.address b)
  && Bool.eqb (User.isDefault a) (User.isDefault b).

(** No path of [v] differs from what it is in [u]. *)
Definition sameData (u v : User.t) : bool :=
  String.eqb (User.name u) (User.name v)
  && String.eqb (User.nickname u) (User.nickname v)
  && String.eqb (User.phone u) (User.phone v)
  && sameList sameAddress (User.addresses u) (User.addresses v)
  && sameList String.eqb (User.favoriteItems (User.preferences u))
                         (User.favoriteItems (User.preferences v))
  && String.eqb (User.deliveryInstructions (User.preferences u))
                (User.deliveryInstructions (User.preferences v)).

Definition replace (u : User.t) (l : list User.t) : list User.t :=
  map (fun v => if N.eqb (User._id v) (User._id u) then u else v) l.

(** [user.save()] on a document that was loaded as [old]: [updatedAt] moves
    when a path was modified. *)
Definition save (now : Time) (s : Store) (old u : User.t) : User.t * Store :=
  let u' :=
    if sameData old u then u
    else {| User._id := User._id u; User.name := User.name u;
            User.nickname := User.nickname u; User.email := User.email u;
            User.phone := User.phone u; User.addresses := User.addresses u;
            User.preferences := User.preferences u;
            User.createdAt := User.createdAt u; User.updatedAt := now |} in
  (u', {| users := replace u' (users s); products := products s;
          orders := orders s; nextId := nextId s |}).

End Users.

(* ------------------------------------------------------------------ *)
(** ** Responses *)

(** The JSON a handler answers with.  [ServerError] is the body of a 500;
    where the handler sends [error.message] it carries the line the handler
    logs the error under. *)
Inductive Body : Type :=
| Message (message : string)
| Failure (message : string)
| ServerError (message : string)
| UserEnvelope (message : string) (user : User.t)
| UserJson (user : User.t)
| UsersJson (l : list User.t)
| UsersCount (count : nat) (l : list User.t)
| ProductEnvelope (message : string) (product : Product.t)
| ProductsJson (l : list Product.t)
| OrderPlaced (message : string) (orderId : ObjectId) (order : Order.t)
| OrderEnvelope (message : string) (order : Order.t)
| OrdersJson (l : list Order.t).

Record Response : Type := { status : nat; body : Body }.

Definition respond (code : nat) (b : Body) : Response :=
  {| status := code; body := b |}.

(** [res.json(...)] without [res.status(...)]. *)
Definition ok (b : Body) : Response := respond 200 b.

(** A body field that holds a string or is not there. *)
Definition Field := option string.

(** [!f] for such a field. *)
Definition missing (f : Field) : bool :=
  match f with Some s => Str.isEmpty s | None => true end.

Definition text (f : Field) : string :=
  match f with Some s => s | None => "" end.

(* ------------------------------------------------------------------ *)
(** ** User handlers *)

(** POST /api/users/create-basic *)
Definition createBasicUser (now : Time) (s : Store) (email nickname : Field)
  : Response * Store :=
  if missing email || missing nickname then
    (respond 400 (Failure "Email and nickname required"), s)
  else
    match Users.findOne s (Str.toLowerCase (text email)) with
    | Some existing => (ok (UserEnvelope "User exists" existing), s)
    | None =>
        match Users.create now s (Str.trim (text nickname)) (Str.trim (text nickname))
                (Str.trim (Str.toLowerCase (text email))) "" with
        | Some (saved, s') =>
            (respond 201 (UserEnvelope "User created successfully" saved), s')
        | None => (respond 500 (ServerError "Create user error"), s)
        end
    end.

(** GET /api/users/:email *)
Definition getUser (s : Store) (email : string) : Response * Store :=
  match Users.findOne s (Str.toLowerCase email) with
  | None => (respond 404 (Failure "User not found"), s)
  | Some user => (ok (UserJson user), s)
  end.

(** One key of the body of PATCH /api/users/:email with its value, at the
    type the schema gives the path. *)
Inductive UserField : Type :=
| SetName (v : string)
| SetNickname (v : string)
| SetEmail (v : string)
| SetPhone (v : string)
| SetAddresses (v : list User.Address)
| SetPreferences (v : User.Preferences).

(** The body of the [forEach]: [user[key] = req.body[key]] unless the key
    is [email]. *)
Definition assign (user : User.t) (f : UserField) : User.t :=
  let '{| User._id := i; User.name := n; User.nickname := k; User.email := e;
          User.phone := p; User.addresses := a; User.preferences := r;
          User.createdAt := c; User.updatedAt := m |} := user in
  match f with
  | SetEmail _ => user
  | SetName v => {| User._id := i; User.name := v; User.nickname := k; User.email := e;
                    User.phone := p; User.addresses := a; User.preferences := r;
                    User.createdAt := c; User.updatedAt := m |}
  | SetNickname v => {| User._id := i; User.name := n; User.nickname := v; User.email := e;
                        User.phone := p; User.addresses := a; User.preferences := r;
                        User.createdAt := c; User.updatedAt := m |}
  | SetPhone v => {| User._id := i; User.name := n; User.nickname := k; User.email := e;
                     User.phone := v; User.addresses := a; User.preferences := r;
                     User.createdAt := c; User.updatedAt := m |}
  | SetAddresses v => {| User._id := i; User.name := n; User.nickname := k; User.email := e;
                         User.phone := p; User.addresses := v; User.preferences := r;
                         User.createdAt := c; User.updatedAt := m |}
  | SetPreferences v => {| User._id := i; User.name := n; User.nickname := k; User.email := e;
                           User.phone := p; User.addresses := a; User.preferences := v;
                           User.createdAt := c; User.updatedAt := m |}
  end.

(** PATCH /api/users/:email *)
Definition patchUser (now : Time) (s : Store) (email : string) (body : list UserField)
  : Response * Store :=
  match Users.findOne s (Str.toLowerCase email) with
  | None => (respond 404 (Failure "User not found"), s)
  | Some user =>
      let '(updated, s') := Users.save now s user (fold_left assign body user) in
      (ok (UserEnvelope "User updated successfully" updated), s')
  end.

(** POST /api/users/register *)
Definition registerUser (now : Time) (s : Store) (name email phone : Field)
  : Response * Store :=
  if missing name || missing email || missing phone then
    (respond 400 (Failure "Name, email, and phone are required"), s)
  else
    match Users.findOne s (Str.toLowerCase (text email)) with
    | Some user =>
        let user1 := assign (assign user (SetName (text name))) (SetPhone (text phone)) in
        let user2 :=
          if Str.isEmpty (User.nickname user1)
          then assign user1 (SetNickname (Str.splitSpaceHead (text name)))
          else user1 in
        let '(saved, s') := Users.save now s user user2 in
        (ok (UserEnvelope "User updated successfully" saved), s')
    | None =>
        match Users.create now s (text name) (Str.splitSpaceHead (text name))
                (Str.toLowerCase (text email)) (text phone) with
        | Some (user, s') =>
            (respond 201 (UserEnvelope "User registered successfully" user), s')
        | None => (respond 500 (ServerError "Failed to register user"), s)
        end
    end.

(** GET /api/users *)
Definition listUsers (s : Store) : Response * Store :=
  (ok (UsersJson (sortNewestFirst User.createdAt (users s))), s).

(** GET /api/debug/users *)
Definition debugUsers (s : Store) : Response * Store :=
  (ok (UsersCount (List.length (users s)) (users s)), s).

(* ------------------------------------------------------------------ *)
(** ** Product handlers *)

(** [!v || typeof v !== 'string' || v.trim() === ''] *)
Definition blank (v : JsVal) : bool :=
  negb (Js.truthy v)
  || match Js.asString v with
     | None => true
     | Some s => Str.isEmpty (Str.trim s)
     end.

(** [v.trim()] once [v] is known to be a string. *)
Definition trimmed (v : JsVal) : string :=
  match Js.asString v with Some s => Str.trim s | None => "" end.

(** [new Product(productData).save()] *)
Definition saveProduct (now : Time) (s : Store)
    (name description : string) (price : num) (category imageUrl : string)
  : option (Product.t * Store) :=
  match castNumber price with
  | None => None
  | Some price' =>
      let p := {| Product._id := nextId s; Product.name := name;
                  Product.description := description; Product.price := price';
                  Product.category := category; Product.imageUrl := imageUrl;
                  Product.createdAt := now; Product.updatedAt := now |} in
      Some (p, {| users := users s; products := products s ++ [p];
                  orders := orders s; nextId := N.succ (nextId s) |})
  end.

(** POST /api/products, after [upload.single('image')] has stored the file
    (if there is one) under [file]. *)
Definition createProduct (now : Time) (s : Store) (body : JsVal) (file : option string)
  : Response * Store :=
  let name := Js.get body "name" in
  let description := Js.get body "description" in
  let price := Js.get body "price" in
  let category := Js.get body "category" in
  if blank name then
    (respond 400 (Failure "Product name is required"), s)
  else if blank description then
    (respond 400 (Failure "Product description is required"), s)
  else if negb (Js.truthy price) || Num.isNaN (Js.parseFloat price) then
    (respond 400 (Failure "Valid product price is required"), s)
  else if blank category then
    (respond 400 (Failure "Product category is required"), s)
  else
    let imagePath :=
      match file with Some filename => "/uploads/" ++ filename | None => "" end in
    match saveProduct now s (trimmed name) (trimmed description)
            (Js.parseFloat price) (trimmed category) imagePath with
    | Some (savedProduct, s') =>
        (respond 201 (ProductEnvelope "Product uploaded successfully" savedProduct), s')
    | None => (respond 400 (Failure "Validation error"), s)
    end.

(** GET /api/products *)
Definition listProducts (s : Store) : Response * Store :=
  (ok (ProductsJson (sortNewestFirst Product.createdAt (products s))), s).

(** [Product.findByIdAndDelete(id)]: the first product with that id is
    removed and returned. *)
Fixpoint removeProduct (i : ObjectId) (l : list Product.t)
  : option (Product.t * list Product.t) :=
  match l with
  | [] => None
  | p :: r =>
      if N.eqb (Product._id p) i then Some (p, r)
      else match removeProduct i r with
           | Some (d, r') => Some (d, p :: r')
           | None => None
           end
  end.

(** DELETE /api/products/:id *)
Definition deleteProduct (s : Store) (id : string) : Response * Store :=
  match ObjId.parse id with
  | None => (respond 500 (Message "Failed to delete product"), s)
  | Some i =>
      match removeProduct i (products s) with
      | None => (respond 404 (Message "Product not found"), s)
      | Some (_, rest) =>
          (ok (Message "Product deleted successfully"),
           {| users := users s; products := rest; orders := orders s;
              nextId := nextId s |})
      end
  end.

(* ------------------------------------------------------------------ *)
(** ** Order handlers *)

(** The [orderData] literal of POST /api/orders, before Mongoose sees it. *)
Record OrderData : Type := {
  d_customer_name : JsVal;
  d_customer_address : JsVal;
  d_customer_phone : JsVal;
  d_customer_email : JsVal;
  d_items : JsVal;
  d_subtotal : num;
  d_deliveryFee : num;
  d_deliveryLocation : JsVal;
  d_total : num;
  d_paymentMethod : JsVal;
  d_paymentReference : JsVal;
  d_paymentStatus : JsVal;
  d_orderReference : JsVal;
  d_fulfilled : bool
}.

Definition orderData (order : JsVal) : OrderData :=
  let customer := Js.get order "customer" in
  {| d_customer_name := Js.get customer "name";
     d_customer_address := Js.get customer "address";
     d_customer_phone := Js.get customer "phone";
     d_customer_email := Js.get customer "email";
     d_items := Js.get order "items";
     d_subtotal := Js.numOr (Js.parseFloat (Js.get order "subtotal"))
                            (Js.parseFloat (Js.get order "total"));
     d_deliveryFee := Js.numOr (Js.parseFloat (Js.get order "deliveryFee")) (Num.ofZ 0);
     d_deliveryLocation := Js.or (Js.get order "deliveryLocation") JNull;
     d_total := Js.parseFloat (Js.get order "total");
     d_paymentMethod := Js.get order "paymentMethod";
     d_paymentReference := Js.or (Js.get order "paymentReference") JNull;
     d_paymentStatus := Js.or (Js.get order "paymentStatus") (JStr "pending");
     d_orderReference := Js.or (Js.get order "orderReference") JNull;
     d_fulfilled := false |}.

Definition bind {A B : Type} (o : option A) (k : A -> option B) : option B :=
  match o with Some a => k a | None => None end.

Notation "x <- o ;; k" := (bind o (fun x => k))
  (at level 61, o at next level, right associativity).

(** [new Order(orderData).save()]: every path is cast by its schema type and
    the required ones must be there; [None] is the ValidationError. *)
Definition saveOrder (M : Casters) (now : Time) (s : Store) (d : OrderData)
  : option (Order.t * Store) :=
  name <- requiredString M (d_customer_name d) ;;
  address <- requiredString M (d_customer_address d) ;;
  phone <- requiredString M (d_customer_phone d) ;;
  email <- requiredString M (d_customer_email d) ;;
  items <- castItems M (d_items d) ;;
  subtotal <- castNumber (d_subtotal d) ;;
  deliveryFee <- castNumber (d_deliveryFee d) ;;
  deliveryLocation <- castLocation M (d_deliveryLocation d) ;;
  total <- castNumber (d_total d) ;;
  paymentMethod <- requiredString M (d_paymentMethod d) ;;
  paymentReference <- castString M (d_paymentReference d) ;;
  paymentStatus <- castString M (d_paymentStatus d) ;;
  orderReference <- castString M (d_orderReference d) ;;
  let o := {| Order._id := nextId s;
              Order.customer := {| Order.name := name; Order.address := address;
                                   Order.phone := phone; Order.email := email |};
              Order.items := items;
              Order.subtotal := subtotal;
              Order.deliveryFee := deliveryFee;
              Order.deliveryLocation := deliveryLocation;
              Order.total := total;
              Order.paymentMethod := paymentMethod;
              Order.paymentReference := paymentReference;
              Order.paymentStatus := paymentStatus;
              Order.orderReference := orderReference;
              Order.fulfilled := d_fulfilled d;
              Order.createdAt := now; Order.updatedAt := now |} in
  Some (o, {| users := users s; products := products s;
              orders := orders s ++ [o]; nextId := N.succ (nextId s) |}).

(** POST /api/orders *)
Definition createOrder (M : Casters) (now : Time) (s : Store) (order : JsVal)
  : Response * Store :=
  if negb (Js.truthy order)
     || negb (Js.truthy (Js.get order "customer"))
     || negb (Js.truthy (Js.get order "items"))
     || Js.isZero (Js.get (Js.get order "items") "length")
  then (respond 400 (Message "Invalid order data"), s)
  else if negb (Js.truthy (Js.get (Js.get order "customer") "email"))
  then (respond 400 (Message "Customer email is required"), s)
  else
    match saveOrder M now s (orderData order) with
    | Some (newOrder, s') =>
        (respond 201 (OrderPlaced "Order placed successfully" (Order._id newOrder) newOrder),
         s')
    | None => (respond 500 (ServerError "Failed to save order"), s)
    end.

(** [Order.find(filter)] with [filter] either [{}] or
    [{ 'customer.email': email }]. *)
Definition findOrders (filter : option string) (l : list Order.t) : list Order.t :=
  match filter with
  | None => l
  | Some e => List.filter (fun o => String.eqb (Order.email (Order.customer o)) e) l
  end.

(** GET /api/orders, [email] being [req.query.email]. *)
Definition listOrders (s : Store) (email : option string) : Response * Store :=
  let filter :=
    match email with
    | Some e => if Str.isEmpty e then None else Some e
    | None => None
    end in
  (ok (OrdersJson (sortNewestFirst Order.createdAt (findOrders filter (orders s)))), s).

Definition setFulfilled (now : Time) (fulfilled : bool) (o : Order.t) : Order.t :=
  {| Order._id := Order._id o; Order.customer := Order.customer o;
     Order.items := Order.items o; Order.subtotal := Order.subtotal o;
     Order.deliveryFee := Order.deliveryFee o;
     Order.deliveryLocation := Order.deliveryLocation o;
     Order.total := Order.total o; Order.paymentMethod := Order.paymentMethod o;
     Order.paymentReference := Order.paymentReference o;
     Order.paymentStatus := Order.paymentStatus o;
     Order.orderReference := Order.orderReference o;
     Order.fulfilled := fulfilled;
     Order.createdAt := Order.createdAt o; Order.updatedAt := now |}.

(** [Order.findByIdAndUpdate(id, { fulfilled }, { new: true })]: the first
    order with that id is updated and the updated document is returned. *)
Fixpoint findByIdAndUpdate (now : Time) (i : ObjectId) (fulfilled : bool)
    (l : list Order.t) : option (Order.t * list Order.t) :=
  match l with
  | [] => None
  | o :: r =>
      if N.eqb (Order._id o) i then
        let o' := setFulfilled now fulfilled o in Some (o', o' :: r)
      else match findByIdAndUpdate now i fulfilled r with
           | Some (u, r') => Some (u, o :: r')
           | None => None
           end
  end.

(** PATCH /api/orders/:id with a boolean [fulfilled] in the body. *)
Definition patchOrder (now : Time) (s : Store) (id : string) (fulfilled : bool)
  : Response * Store :=
  match ObjId.parse id with
  | None => (respond 400 (Failure "Invalid order ID"), s)
  | Some i =>
      match findByIdAndUpdate now i fulfilled (orders s) with
      | None => (respond 404 (Failure "Order not found"), s)
      | Some (updatedOrder, l) =>
          (ok (OrderEnvelope "Order status updated successfully" updatedOrder),
           {| users := users s; products := products s; orders := l;
              nextId := nextId s |})
      end
  end.

(* ------------------------------------------------------------------ *)
(** ** The routes *)

(** The requests that reach the store.  ([GET /], [/api/test] and
    [/api/health] answer from the process alone.) *)
Inductive Request : Type :=
| PostCreateBasic (email nickname : Field)
| GetUser (email : string)
| PatchUser (email : string) (body : list UserField)
| PostRegister (name email phone : Field)
| GetUsers
| GetDebugUsers
| PostProduct (body : JsVal) (file : option string)
| GetProducts
| DeleteProduct (id : string)
| PostOrder (order : JsVal)
| GetOrders (email : option string)
| PatchOrder (id : string) (fulfilled : bool).

Definition handle (M : Casters) (now : Time) (s : Store) (r : Request)
  : Response * Store :=
  match r with
  | PostCreateBasic email nickname => createBasicUser now s email nickname
  | GetUser email => getUser s email
  | PatchUser email body => patchUser now s email body
  | PostRegister name email phone => registerUser now s name email phone
  | GetUsers => listUsers s
  | GetDebugUsers => debugUsers s
  | PostProduct body file => createProduct now s body file
  | GetProducts => listProducts s
  | DeleteProduct id => deleteProduct s id
  | PostOrder order => createOrder M now s order
  | GetOrders email => listOrders s email
  | PatchOrder id fulfilled => patchOrder now s id fulfilled
  end.

Definition isPatchOrder (r : Request) : bool :=
  match r with PatchOrder _ _ => true | _ => false end.

(* ------------------------------------------------------------------ *)
(** ** Casts for plain bodies

    Casters for bodies in which a String path holds a string and a Number
    path a number (or nothing): what Mongoose leaves as it is.  They serve
    to run the handlers on given requests. *)

Module Plain.

Definition str (v : JsVal) : option (option string) :=
  match v with
  | JStr s => Some (Some s)
  | JNull | JUndefined => Some None
  | _ => None
  end.

Definition number (v : JsVal) : option (option num) :=
  match v with
  | JNum n => option_map Some (castNumber n)
  | JNull | JUndefined => Some None
  | _ => None
  end.

Definition item (v : JsVal) : option Order.Item :=
  match v with
  | JObj _ =>
      i <- str (Js.get v "id") ;;
      n <- str (Js.get v "name") ;;
      p <- number (Js.get v "price") ;;
      q <- number (Js.get v "quantity") ;;
      Some {| Order.item_id := i; Order.item_name := n;
              Order.item_price := p; Order.quantity := q |}
  | _ => None
  end.

Fixpoint each {A B : Type} (f : A -> option B) (l : list A) : option (list B) :=
  match l with
  | [] => Some []
  | x :: r => y <- f x ;; ys <- each f r ;; Some (y :: ys)
  end.

Definition itemList (v : JsVal) : option (list Order.Item) :=
  match v with
  | JArr l => each item l
  | _ => None
  end.

Definition location (v : JsVal) : option (option Order.Location) :=
  match v with
  | JNull | JUndefined => Some None
  | JObj _ =>
      i <- str (Js.get v "id") ;;
      n <- str (Js.get v "name") ;;
      f <- number (Js.get v "fee") ;;
      Some (Some {| Order.loc_id := i; Order.loc_name := n; Order.fee := f |})
  | _ => None
  end.

Definition casters : Casters :=
  {| castString := str; castItems := itemList; castLocation := location |}.

End Plain.

(** The order of the checkout scenario:
    [{customer: {name: "A", address: "X", phone: "1", email: "a@b.com"},
      items: [{id: "1", name: "Burger", price: 5, quantity: 2}],
      total: 10, paymentMethod: "cash"}] with further fields in front. *)
Definition burgerOrder (more : list (string * JsVal)) : JsVal :=
  JObj (more ++
        [("customer", JObj [("name", JStr "A"); ("address", JStr "X");
                            ("phone", JStr "1"); ("email", JStr "a@b.com")]);
         ("items", JArr [JObj [("id", JStr "1"); ("name", JStr "Burger");
                               ("price", JNum (Num.ofZ 5));
                               ("quantity", JNum (Num.ofZ 2))]]);
         ("total", JNum (Num.ofZ 10));
         ("paymentMethod", JStr "cash")]).

(* ------------------------------------------------------------------ *)
(** ** The vocabulary of the properties *)


(** [x] is at least as new as [y]. *)
Definition newerOrSame {A : Type} (key : A -> Time) (x y : A) : Prop :=
  (key y <= key x)%N.

Definition hasOrder (i : ObjectId) (l : list Order.t) : bool :=
  existsb (fun o => N.eqb (Order._id o) i) l.

(** Every path of an order but [fulfilled] and the time stamp Mongoose
    keeps. *)
Definition sameButFulfilled (o u : Order.t) : Prop :=
  Order._id u = Order._id o /\
  Order.customer u = Order.customer o /\
  Order.items u = Order.items o /\
  Order.subtotal u = Order.subtotal o /\
  Order.deliveryFee u = Order.deliveryFee o /\
  Order.deliveryLocation u = Order.deliveryLocation o /\
  Order.total u = Order.total o /\
  Order.paymentMethod u = Order.paymentMethod o /\
  Order.paymentReference u = Order.paymentReference o /\
  Order.paymentStatus u = Order.paymentStatus o /\
  Order.orderReference u = Order.orderReference o /\
  Order.createdAt u = Order.createdAt o.

(** A field that is a string with something left after trimming. *)
Definition hasText (v : JsVal) : Prop :=
  exists t, v = JStr t /\ Str.trim t <> "".

(** The price check of POST /api/products:
    [!price || isNaN(parseFloat(price))]. *)
Definition badPrice (price : JsVal) : Prop :=
  Js.truthy price = false \/ Num.isNaN (Js.parseFloat price) = true.

(** A string that does not begin with white space. *)
Definition noLeadingSpace (s : string) : Prop :=
  match s with
  | String c _ => Str.isWhiteSpace c = false
  | EmptyString => True
  end.

(** [split(' ')[0]] is the part of a string before its first SPACE. *)
Fixpoint hasSpace (s : string) : bool :=
  match s with
  | String c r => Ascii.eqb c " "%char || hasSpace r
  | EmptyString => false
  end.

Definition tab : string := String (ascii_of_nat 9) "".

(** The nickname the specification describes: "the first
    whitespace-delimited token" of a name, the characters before its first
    white space. *)
Fixpoint specFirstToken (s : string) : string :=
  match s with
  | String c r => if Str.isWhiteSpace c then "" else String c (specFirstToken r)
  | EmptyString => ""
  end.

(** The value a body provides for a path: that of the last key the picker
    accepts, if there is one. *)
Fixpoint provided {A : Type} (pick : UserField -> option A) (body : list UserField)
  : option A :=
  match body with
  | [] => None
  | f :: r =>
      match provided pick r with
      | Some v => Some v
      | None => pick f
      end
  end.

Definition orElse {A : Type} (o : option A) (previous : A) : A :=
  match o with Some v => v | None => previous end.

Definition nameOf f := match f with SetName v => Some v | _ => None end.
Definition nicknameOf f := match f with SetNickname v => Some v | _ => None end.
Definition emailOf f := match f with SetEmail v => Some v | _ => None end.
Definition phoneOf f := match f with SetPhone v => Some v | _ => None end.
Definition addressesOf f := match f with SetAddresses v => Some v | _ => None end.
Definition preferencesOf f := match f with SetPreferences v => Some v | _ => None end.

(* ------------------------------------------------------------------ *)
(** ** The CORS middleware *)

Module Cors.

Definition allowedOrigins : list string :=
  ["http://localhost:3000";
   "http://127.0.0.1:3000";
   "https://obiggrills.netlify.app";
   "https://obiggrills.netlify.app/"].

(** [allowedOrigins.includes(origin)], [origin] being the header or
    [undefined]. *)
Definition includes (origin : option string) : bool :=
  match origin with
  | Some o => existsb (String.eqb o) allowedOrigins
  | None => false
  end.

(** The first middleware of the application: the headers it sets, and the
    status it ends the request with when it does not call [next()]. *)
Definition middleware (origin : option string) (method : string)
  : list (string * string) * option nat :=
  let allow :=
    if includes origin || missing origin
    then [("Access-Control-Allow-Origin", if missing origin then "*" else text origin)]
    else [] in
  let headers :=
    (allow ++
     [("Access-Control-Allow-Credentials", "true");
      ("Access-Control-Allow-Methods", "GET,POST,PUT,DELETE,PATCH,OPTIONS");
      ("Access-Control-Allow-Headers",
       "Origin,X-Requested-With,Content-Type,Accept,Authorization,Cache-Control,X-Forwarded-For");
      ("Access-Control-Max-Age", "86400")])%list in
  if String.eqb method "OPTIONS" then (headers, Some 204) else (headers, None).

End Cors.

(* ------------------------------------------------------------------ *)
(** ** Stores the routes can build *)

(** The routes that only read. *)
Definition isGet (r : Request) : bool :=
  match r with
  | GetUser _ | GetUsers | GetDebugUsers | GetProducts | GetOrders _ => true
  | _ => false
  end.

(** The users of a store whose next id is [n]: ids of their own, all
    handed out already; addresses of their own, as the setters of the schema
    leave them and not empty. *)
Definition usersOk (n : ObjectId) (l : list User.t) : Prop :=
  NoDup (map User._id l) /\
  Forall (fun u => (User._id u < n)%N) l /\
  NoDup (map User.email l) /\
  Forall (fun u => User.email u <> "" /\
                   User.emailSetters (User.email u) = User.email u) l.

(** The products: ids of their own, handed out already; a price that is a
    number. *)
Definition productsOk (n : ObjectId) (l : list Product.t) : Prop :=
  NoDup (map Product._id l) /\
  Forall (fun p => (Product._id p < n)%N) l /\
  Forall (fun p => Num.isNaN (Product.price p) = false) l.

(** What [required: true] and the Number paths of the order schema ask. *)
Definition orderComplete (o : Order.t) : Prop :=
  Order.name (Order.customer o) <> "" /\
  Order.address (Order.customer o) <> "" /\
  Order.phone (Order.customer o) <> "" /\
  Order.email (Order.customer o) <> "" /\
  Order.paymentMethod o <> "" /\
  Num.isNaN (Order.total o) = false /\
  Num.isNaN (Order.subtotal o) = false /\
  Num.isNaN (Order.deliveryFee o) = false.

(** The orders: ids of their own, handed out already; complete. *)
Definition ordersOk (n : ObjectId) (l : list Order.t) : Prop :=
  NoDup (map Order._id l) /\
  Forall (fun o => (Order._id o < n)%N) l /\
  Forall orderComplete l.

Definition wellFormed (s : Store) : Prop :=
  usersOk (nextId s) (users s) /\
  productsOk (nextId s) (products s) /\
  ordersOk (nextId s) (orders s).

(** The user POST /api/users/register saves in the place of [u]. *)
Definition registered (u : User.t) (name phone : string) : User.t :=
  let user1 := assign (assign u (SetName name)) (SetPhone phone) in
  if Str.isEmpty (User.nickname user1)
  then assign user1 (SetNickname (Str.splitSpaceHead name))
  else user1.

(** The stores a run of requests leads to from the empty one. *)
Inductive reachable (M : Casters) : Store -> Prop :=
| reach_empty : reachable M emptyStore
| reach_handle now s r :
    reachable M s -> reachable M (snd (handle M now s r)).

(* ------------------------------------------------------------------ *)
(** * Properties *)

(** ** The parser and the string functions at work *)

Example parseFloat_reads_prefix :
  Num.parseFloatStr " 12.50abc" = Fin (25 # 2) /\
  Num.parseFloatStr "-.5e1" = Fin (-5 # 1) /\
  Num.parseFloatStr "1e" = Fin (1 # 1) /\
  Num.parseFloatStr "abc" = NaN /\
  Num.parseFloatStr "" = NaN /\
  Num.parseFloatStr "." = NaN /\
  Num.parseFloatStr "-Infinity" = Inf true.
Proof. repeat split. Qed.

Example parseFloat_of_values :
  Js.parseFloat JUndefined = NaN /\
  Js.parseFloat (JBool true) = NaN /\
  Js.parseFloat (JArr [JStr "7"; JStr "8"]) = Fin (7 # 1) /\
  Js.parseFloat (JArr []) = NaN /\
  Js.parseFloat (JObj [("valueOf", JNum (Num.ofZ 3))]) = NaN.
Proof. repeat split. Qed.

Example strings_at_work :
  Str.trim "  a b  " = "a b" /\
  Str.toLowerCase "Ada@Grill.NG" = "ada@grill.ng" /\
  Str.splitSpaceHead "Ada Obi Eze" = "Ada" /\
  Str.splitSpaceHead " Ada" = "" /\
  ObjId.parse "00000000000000000000000A" = Some 10%N /\
  ObjId.parse "123" = None.
Proof. repeat split. Qed.

(** ** Orders *)

Ltac split_bind H :=
  repeat match type of H with
         | bind ?x _ = Some _ =>
             let E := fresh "E" in
             destruct x eqn:E; simpl in H; [ | discriminate H ]
         end.

(** What a saved order holds, and what saving does to the store. *)
Lemma saveOrder_inv M now s d o s' :
  saveOrder M now s d = Some (o, s') ->
  Order.subtotal o = d_subtotal d /\
  Order.deliveryFee o = d_deliveryFee d /\
  Order.total o = d_total d /\
  Order.fulfilled o = d_fulfilled d /\
  Num.isNaN (d_subtotal d) = false /\
  Num.isNaN (d_total d) = false /\
  orders s' = (orders s ++ [o])%list /\
  users s' = users s /\ products s' = products s.
Proof.
  unfold saveOrder. intros H. split_bind H.
  unfold castNumber in *.
  destruct (Num.isNaN (d_subtotal d)) eqn:Ns; [ discriminate | ].
  destruct (Num.isNaN (d_deliveryFee d)) eqn:Nf; [ discriminate | ].
  destruct (Num.isNaN (d_total d)) eqn:Nt; [ discriminate | ].
  inversion E4; inversion E5; inversion E7; subst.
  inversion H; subst; simpl. repeat split; reflexivity.
Qed.

(** An accepted order went through both guards and was saved. *)
Lemma createOrder_201 M now s order r s' :
  createOrder M now s order = (r, s') ->
  status r = 201 ->
  exists o,
    saveOrder M now s (orderData order) = Some (o, s') /\
    r = respond 201 (OrderPlaced "Order placed successfully" (Order._id o) o).
Proof.
  unfold createOrder. intros H St.
  destruct (_ || _ || _ || _).
  { inversion H; subst; discriminate St. }
  destruct (negb _).
  { inversion H; subst; discriminate St. }
  destruct (saveOrder M now s (orderData order)) as [[o t] | ] eqn:E.
  - inversion H; subst. exists o. split; reflexivity.
  - inversion H; subst; discriminate St.
Qed.

(** A response of POST /api/orders other than 201 leaves the store alone. *)
Lemma createOrder_rejected M now s order :
  status (fst (createOrder M now s order)) <> 201 ->
  snd (createOrder M now s order) = s.
Proof.
  unfold createOrder.
  destruct (_ || _ || _ || _); [ reflexivity | ].
  destruct (negb _); [ reflexivity | ].
  destruct (saveOrder M now s (orderData order)) as [[o t] | ]; simpl.
  - intros H; exfalso; apply H; reflexivity.
  - reflexivity.
Qed.








(** The handlers of the user and product routes do not write orders. *)
Lemma createBasicUser_orders now s e n :
  orders (snd (createBasicUser now s e n)) = orders s.
Proof.
  unfold createBasicUser, Users.create.
  repeat match goal with
         | |- context [if ?b then _ else _] => destruct b
         | |- context [match ?x with Some _ => _ | None => _ end] => destruct x
         end; reflexivity.
Qed.

Lemma patchUser_orders now s e b : orders (snd (patchUser now s e b)) = orders s.
Proof. unfold patchUser. destruct (Users.findOne _ _); reflexivity. Qed.

Lemma registerUser_orders now s n e p :
  orders (snd (registerUser now s n e p)) = orders s.
Proof.
  unfold registerUser, Users.create.
  destruct (_ || _ || _); [ reflexivity | ].
  destruct (Users.findOne _ _); [ reflexivity | ].
  repeat match goal with
         | |- context [if ?b then _ else _] => destruct b
         end; reflexivity.
Qed.

Lemma createProduct_orders now s b f :
  orders (snd (createProduct now s b f)) = orders s.
Proof.
  unfold createProduct, saveProduct.
  repeat match goal with
         | |- context [if ?b then _ else _] => destruct b
         | |- context [match castNumber ?x with Some _ => _ | None => _ end] =>
             destruct (castNumber x)
         end; reflexivity.
Qed.

Lemma deleteProduct_orders s i : orders (snd (deleteProduct s i)) = orders s.
Proof.
  unfold deleteProduct. destruct (ObjId.parse i); [ | reflexivity ].
  destruct (removeProduct _ _) as [[d r] | ]; reflexivity.
Qed.

(** POST /api/orders adds at most one order, unfulfilled, and touches none
    that is stored. *)
Lemma createOrder_orders M now s order :
  exists added,
    orders (snd (createOrder M now s order)) = (orders s ++ added)%list /\
    Forall (fun o => Order.fulfilled o = false) added.
Proof.
  destruct (createOrder M now s order) as [r s'] eqn:H.
  destruct (Nat.eq_dec (status r) 201) as [St | St].
  - destruct (createOrder_201 _ _ _ _ _ _ H St) as [o [Sv _]].
    destruct (saveOrder_inv _ _ _ _ _ _ Sv)
      as [_ [_ [_ [Hf [_ [_ [Ho _]]]]]]].
    exists [o]. split; [ exact Ho | ]. constructor; [ exact Hf | constructor ].
  - exists []. simpl. rewrite app_nil_r.
    pose proof (createOrder_rejected M now s order) as R.
    rewrite H in R. simpl in R. rewrite R; [ | exact St ].
    split; [ reflexivity | constructor ].
Qed.

(** C2.  An order POST /api/orders creates is stored with [fulfilled]
    false whatever the body says, and a request to any route other than
    PATCH /api/orders/:id leaves every stored order, its [fulfilled]
    included, as it was: such a request can only add orders, and those are
    unfulfilled. *)
Theorem fulfilled_only_by_patch :
  (forall M now s order r s',
      createOrder M now s order = (r, s') ->
      status r = 201 ->
      exists o,
        r = respond 201 (OrderPlaced "Order placed successfully" (Order._id o) o) /\
        orders s' = (orders s ++ [o])%list /\
        Order.fulfilled o = false) /\
  (forall M now s request,
      isPatchOrder request = false ->
      exists added,
        orders (snd (handle M now s request)) = (orders s ++ added)%list /\
        Forall (fun o => Order.fulfilled o = false) added).
Proof.
  split.
  - intros M now s order r s' H St.
    destruct (createOrder_201 _ _ _ _ _ _ H St) as [o [Sv ->]].
    destruct (saveOrder_inv _ _ _ _ _ _ Sv)
      as [_ [_ [_ [Hf [_ [_ [Ho _]]]]]]].
    exists o. repeat split; assumption.
  - intros M now s request NP.
    assert (K : forall t, orders t = orders s ->
                exists added, orders t = (orders s ++ added)%list /\
                  Forall (fun o => Order.fulfilled o = false) added).
    { intros t E. exists []. rewrite app_nil_r. split; [ exact E | constructor ]. }
    destruct request; simpl in *; try discriminate NP.
    + apply K, createBasicUser_orders.
    + apply K. unfold getUser. destruct (Users.findOne _ _); reflexivity.
    + apply K, patchUser_orders.
    + apply K, registerUser_orders.
    + apply K. reflexivity.
    + apply K. reflexivity.
    + apply K, createProduct_orders.
    + apply K. reflexivity.
    + apply K, deleteProduct_orders.
    + apply createOrder_orders.
    + apply K. reflexivity.
Qed.

(** [fulfilled_only_by_patch] at an order that asks to be stored as
    fulfilled, and at the same order sent through the router. *)
Lemma fulfilled_only_by_patch_witness :
  let order := burgerOrder [("fulfilled", JBool true)] in
  let result := createOrder Plain.casters 7%N emptyStore order in
  (exists o, orders (snd result) = [o] /\ Order.fulfilled o = false) /\
  (exists added,
      orders (snd (handle Plain.casters 7%N (snd result) (PostOrder order)))
        = (orders (snd result) ++ added)%list /\
      Forall (fun o => Order.fulfilled o = false) added).
Proof.
  intros order result. split.
  - destruct (proj1 fulfilled_only_by_patch Plain.casters 7%N emptyStore order
                (fst result) (snd result) eq_refl eq_refl) as [o [_ [O F]]].
    exists o. split; [ exact O | exact F ].
  - exact (proj2 fulfilled_only_by_patch Plain.casters 7%N (snd result)
             (PostOrder order) eq_refl).
Defined.

(** C5.  POST /api/orders answers 400 and stores nothing when [items] is
    missing or is the empty array, and when [customer.email] is missing,
    whatever else the body holds. *)
Theorem order_without_items_or_email_rejected M now s order :
  Js.truthy (Js.get order "items") = false
  \/ Js.get order "items" = JArr []
  \/ Js.truthy (Js.get (Js.get order "customer") "email") = false ->
  status (fst (createOrder M now s order)) = 400 /\
  snd (createOrder M now s order) = s.
Proof.
  intros H. unfold createOrder.
  destruct (negb (Js.truthy order)
            || negb (Js.truthy (Js.get order "customer"))
            || negb (Js.truthy (Js.get order "items"))
            || Js.isZero (Js.get (Js.get order "items") "length")) eqn:G.
  { split; reflexivity. }
  destruct (negb (Js.truthy (Js.get (Js.get order "customer") "email"))) eqn:E.
  { split; reflexivity. }
  exfalso.
  apply orb_false_iff in G. destruct G as [G Z].
  apply orb_false_iff in G. destruct G as [_ I].
  apply negb_false_iff in I. apply negb_false_iff in E.
  destruct H as [H | [H | H]].
  - rewrite H in I. discriminate.
  - rewrite H in Z. discriminate.
  - rewrite H in E. discriminate.
Qed.

Lemma order_without_items_or_email_rejected_witness :
  let noItems := JObj [("customer", JObj [("name", JStr "A"); ("address", JStr "X");
                                          ("phone", JStr "1"); ("email", JStr "a@b.com")]);
                       ("items", JArr []);
                       ("total", JNum (Num.ofZ 10)); ("paymentMethod", JStr "cash")] in
  let noEmail := JObj [("customer", JObj [("name", JStr "A"); ("address", JStr "X");
                                          ("phone", JStr "1")]);
                       ("items", JArr [JObj [("id", JStr "1")]]);
                       ("total", JNum (Num.ofZ 10)); ("paymentMethod", JStr "cash")] in
  (status (fst (createOrder Plain.casters 7%N emptyStore noItems)) = 400 /\
   snd (createOrder Plain.casters 7%N emptyStore noItems) = emptyStore) /\
  (status (fst (createOrder Plain.casters 7%N emptyStore noEmail)) = 400 /\
   snd (createOrder Plain.casters 7%N emptyStore noEmail) = emptyStore).
Proof.
  intros noItems noEmail. split.
  - apply (order_without_items_or_email_rejected Plain.casters 7%N emptyStore noItems).
    right; left; reflexivity.
  - apply (order_without_items_or_email_rejected Plain.casters 7%N emptyStore noEmail).
    right; right; reflexivity.
Defined.

(** ** The status update *)

Lemma findByIdAndUpdate_none now i b l :
  findByIdAndUpdate now i b l = None <-> hasOrder i l = false.
Proof.
  induction l as [ | o r IH]; simpl.
  - split; reflexivity.
  - destruct (N.eqb (Order._id o) i); simpl.
    + split; discriminate.
    + destruct (findByIdAndUpdate now i b r) as [[u r'] | ].
      * split; [ discriminate | ]. intros H. apply IH in H. discriminate.
      * split; [ intros _; apply IH; reflexivity | reflexivity ].
Qed.

Lemma findByIdAndUpdate_some now i b l u l' :
  findByIdAndUpdate now i b l = Some (u, l') ->
  exists before o after,
    l = (before ++ o :: after)%list /\
    hasOrder i before = false /\
    Order._id o = i /\
    u = setFulfilled now b o /\
    l' = (before ++ u :: after)%list.
Proof.
  revert u l'. induction l as [ | o r IH]; simpl; intros u l' H.
  - discriminate.
  - destruct (N.eqb (Order._id o) i) eqn:E.
    + inversion H; subst. exists [], o, r. apply N.eqb_eq in E.
      repeat split; assumption.
    + destruct (findByIdAndUpdate now i b r) as [[v r'] | ]; [ | discriminate ].
      inversion H; subst.
      destruct (IH _ _ eq_refl) as [before [x [after [L [B [I [U L']]]]]]].
      exists (o :: before), x, after. simpl. rewrite E, L, L'.
      repeat split; assumption.
Qed.

(** Updating once more gives what the first update would have given at
    that time. *)
Lemma findByIdAndUpdate_again now now' i b l u l' :
  findByIdAndUpdate now i b l = Some (u, l') ->
  findByIdAndUpdate now' i b l' = findByIdAndUpdate now' i b l.
Proof.
  revert u l'. induction l as [ | o r IH]; simpl; intros u l' H.
  - discriminate.
  - destruct (N.eqb (Order._id o) i) eqn:E.
    + inversion H; subst. simpl. rewrite E. reflexivity.
    + destruct (findByIdAndUpdate now i b r) as [[v r'] | ] eqn:F; [ | discriminate ].
      inversion H; subst. simpl. rewrite E.
      rewrite (IH _ _ eq_refl). reflexivity.
Qed.

Lemma patchOrder_again now now' s id fulfilled :
  fst (patchOrder now' (snd (patchOrder now s id fulfilled)) id fulfilled)
    = fst (patchOrder now' s id fulfilled) /\
  patchOrder now (snd (patchOrder now s id fulfilled)) id fulfilled
    = patchOrder now s id fulfilled.
Proof.
  unfold patchOrder.
  destruct (ObjId.parse id) as [i | ]; simpl; [ | split; reflexivity ].
  destruct (findByIdAndUpdate now i fulfilled (orders s)) as [[u l] | ] eqn:F; simpl.
  - rewrite (findByIdAndUpdate_again _ now' _ _ _ _ _ F).
    rewrite (findByIdAndUpdate_again _ now _ _ _ _ _ F), F.
    split; [ | reflexivity ].
    destruct (findByIdAndUpdate now' i fulfilled (orders s)) as [[v m] | ];
      reflexivity.
  - rewrite F. split; [ | reflexivity ].
    destruct (findByIdAndUpdate now' i fulfilled (orders s)) as [[v m] | ];
      reflexivity.
Qed.

(** C6.  PATCH /api/orders/:id answers 400 exactly when the id is not a
    well-formed ObjectId, 404 exactly when it is well-formed and no stored
    order has it, and otherwise 200 with the order updated: its
    [fulfilled] is the boolean of the body, its other paths are what they
    were (the [updatedAt] stamp of the store aside), no other order and no
    other collection changes.  Sending the same request again gives the
    same response, and at the same time the same store. *)
Theorem patchOrder_spec now s id fulfilled :
  (status (fst (patchOrder now s id fulfilled)) = 400 <-> ObjId.isValid id = false) /\
  (status (fst (patchOrder now s id fulfilled)) = 404 <->
     exists i, ObjId.parse id = Some i /\ hasOrder i (orders s) = false) /\
  (forall i, ObjId.parse id = Some i -> hasOrder i (orders s) = true ->
     exists before o after u,
       orders s = (before ++ o :: after)%list /\
       hasOrder i before = false /\ Order._id o = i /\
       Order.fulfilled u = fulfilled /\ sameButFulfilled o u /\
       patchOrder now s id fulfilled
         = (respond 200 (OrderEnvelope "Order status updated successfully" u),
            {| users := users s; products := products s;
               orders := (before ++ u :: after)%list; nextId := nextId s |})) /\
  (forall now',
     fst (patchOrder now' (snd (patchOrder now s id fulfilled)) id fulfilled)
       = fst (patchOrder now' s id fulfilled)) /\
  patchOrder now (snd (patchOrder now s id fulfilled)) id fulfilled
    = patchOrder now s id fulfilled.
Proof.
  split; [ | split; [ | split; [ | split ] ] ].
  - unfold patchOrder, ObjId.isValid.
    destruct (ObjId.parse id) as [i | ]; [ | split; reflexivity ].
    destruct (findByIdAndUpdate _ _ _ _) as [[u l] | ]; split; discriminate.
  - unfold patchOrder.
    destruct (ObjId.parse id) as [i | ].
    + destruct (findByIdAndUpdate now i fulfilled (orders s)) as [[u l] | ] eqn:F.
      * split; [ discriminate | ]. intros [j [J N]]. inversion J; subst j.
        apply (findByIdAndUpdate_none now i fulfilled) in N. congruence.
      * split; [ | reflexivity ]. intros _. exists i.
        split; [ reflexivity | ]. apply (findByIdAndUpdate_none now i fulfilled), F.
    + split; [ discriminate | ]. intros [j [J _]]. discriminate J.
  - intros i P H. unfold patchOrder. rewrite P.
    destruct (findByIdAndUpdate now i fulfilled (orders s)) as [[u l] | ] eqn:F.
    + destruct (findByIdAndUpdate_some _ _ _ _ _ _ F)
        as [before [o [after [L [B [I [U L']]]]]]].
      exists before, o, after, u. subst u l.
      repeat split; assumption.
    + apply findByIdAndUpdate_none in F. congruence.
  - intros now'. apply patchOrder_again.
  - apply (patchOrder_again now now).
Qed.

(** [patchOrder_spec] on the store that holds the order of the scenario:
    its id is 1. *)
Lemma patchOrder_spec_witness :
  let s := snd (createOrder Plain.casters 7%N emptyStore (burgerOrder [])) in
  let id := "000000000000000000000001" in
  exists o u,
    orders s = [o] /\ Order.fulfilled o = false /\
    Order.fulfilled u = true /\ sameButFulfilled o u /\
    fst (patchOrder 9%N s id true)
      = respond 200 (OrderEnvelope "Order status updated successfully" u) /\
    orders (snd (patchOrder 9%N s id true)) = [u].
Proof.
  intros s id.
  destruct (proj1 (proj2 (proj2 (patchOrder_spec 9%N s id true))) 1%N eq_refl eq_refl)
    as [before [o [after [u [L [B [I [F [S E]]]]]]]]].
  destruct before as [ | x before];
    [ | destruct before; discriminate L ].
  destruct after; [ | discriminate L ].
  exists o, u. rewrite E. simpl.
  repeat split; try apply S; try exact F.
  - exact L.
  - inversion L. reflexivity.
Defined.

(** ** Listings *)

Section NewestFirstFacts.
Context {A : Type} (key : A -> Time).

Lemma insertNewest_perm x l : Permutation (x :: l) (insertNewest key x l).
Proof.
  induction l as [ | y r IH]; simpl.
  - apply Permutation_refl.
  - destruct (key y <? key x)%N.
    + apply Permutation_refl.
    + apply perm_trans with (y :: x :: r).
      * apply perm_swap.
      * apply perm_skip, IH.
Qed.

Lemma sortNewestFirst_perm l : Permutation l (sortNewestFirst key l).
Proof.
  induction l as [ | x r IH]; simpl.
  - apply perm_nil.
  - apply perm_trans with (x :: sortNewestFirst key r).
    + apply perm_skip, IH.
    + apply insertNewest_perm.
Qed.

Lemma insertNewest_hd x y l :
  newerOrSame key y x -> HdRel (newerOrSame key) y l -> HdRel (newerOrSame key) y (insertNewest key x l).
Proof.
  intros Hx Hl. destruct l as [ | z r]; simpl.
  - constructor. exact Hx.
  - destruct (key z <? key x)%N; constructor.
    + exact Hx.
    + inversion Hl; assumption.
Qed.

Lemma insertNewest_sorted x l :
  Sorted (newerOrSame key) l -> Sorted (newerOrSame key) (insertNewest key x l).
Proof.
  induction l as [ | y r IH]; simpl; intros S.
  - repeat constructor.
  - inversion S as [ | ? ? Sr Hr]; subst.
    destruct (key y <? key x)%N eqn:C.
    + constructor; [ exact S | ]. constructor.
      apply N.ltb_lt in C. unfold newerOrSame. lia.
    + constructor; [ apply IH, Sr | ].
      apply insertNewest_hd; [ | exact Hr ].
      apply N.ltb_ge in C. exact C.
Qed.

Lemma sortNewestFirst_sorted l : Sorted (newerOrSame key) (sortNewestFirst key l).
Proof.
  induction l as [ | x r IH]; simpl.
  - constructor.
  - apply insertNewest_sorted, IH.
Qed.
End NewestFirstFacts.

Lemma lowerChar_idem c : Str.lowerChar (Str.lowerChar c) = Str.lowerChar c.
Proof. destruct c as [[] [] [] [] [] [] [] []]; reflexivity. Qed.

Lemma toLowerCase_idem e : Str.toLowerCase (Str.toLowerCase e) = Str.toLowerCase e.
Proof.
  induction e as [ | c r IH]; simpl; [ reflexivity | ].
  rewrite lowerChar_idem, IH. reflexivity.
Qed.

(** C9 as the specification words it asks that a supplied [email] selects
    the orders of that customer.  An [email] that is supplied empty
    ([GET /api/orders?email=]) selects every order, though no stored order
    has an empty [customer.email]. *)
Lemma orders_empty_email_lists_all :
  let s := snd (createOrder Plain.casters 7%N emptyStore (burgerOrder [])) in
  exists o,
    orders s = [o] /\
    Order.email (Order.customer o) = "a@b.com" /\
    fst (listOrders s (Some "")) = ok (OrdersJson [o]) /\
    List.filter (fun x => String.eqb (Order.email (Order.customer x)) "") (orders s) = [].
Proof.
  cbv zeta. eexists. split; [ reflexivity | ]. repeat split.
Qed.

(** C9 (amended).  GET /api/orders with a non-empty [email] parameter
    answers with exactly the stored orders whose [customer.email] is that
    very string, nothing being lowercased; without the parameter, or with
    an empty one, it answers with all orders; either way the newest come
    first.  The user lookup, for its part, lowercases what it is asked
    for. *)
Theorem listOrders_spec :
  (forall s email,
      exists l,
        listOrders s email = (ok (OrdersJson l), s) /\
        Sorted (newerOrSame Order.createdAt) l /\
        match email with
        | Some (String c r) =>
            Permutation l
              (List.filter (fun o => String.eqb (Order.email (Order.customer o)) (String c r))
                           (orders s)) /\
            (forall o, In o l <->
                       In o (orders s) /\ Order.email (Order.customer o) = String c r)
        | _ => Permutation l (orders s)
        end) /\
  (forall s email, getUser s (Str.toLowerCase email) = getUser s email).
Proof.
  split.
  - intros s email. unfold listOrders. eexists. split; [ reflexivity | ].
    split; [ apply sortNewestFirst_sorted | ].
    destruct email as [[ | c r] | ]; simpl.
    + apply Permutation_sym, sortNewestFirst_perm.
    + split; [ apply Permutation_sym, sortNewestFirst_perm | ].
      intros o. rewrite <- String.eqb_eq.
      rewrite <- (filter_In (fun x => String.eqb (Order.email (Order.customer x)) (String c r))).
      split; apply Permutation_in;
        [ apply Permutation_sym | ]; apply sortNewestFirst_perm.
    + apply Permutation_sym, sortNewestFirst_perm.
  - intros s email. unfold getUser. rewrite toLowerCase_idem. reflexivity.
Qed.

(** [listOrders_spec] on a store with an order of a@b.com: asked for
    "A@B.com", the listing holds no order of that customer. *)
Lemma listOrders_spec_witness :
  let s := snd (createOrder Plain.casters 7%N emptyStore (burgerOrder [])) in
  exists l,
    listOrders s (Some "A@B.com") = (ok (OrdersJson l), s) /\
    forall o, In o l <-> In o (orders s) /\ Order.email (Order.customer o) = "A@B.com".
Proof.
  intros s.
  destruct (proj1 listOrders_spec s (Some "A@B.com")) as [l [R [_ [_ M]]]].
  exists l. split; [ exact R | exact M ].
Defined.

(** ** Products *)

Lemma isEmpty_true s : Str.isEmpty s = true <-> s = "".
Proof. destruct s; simpl; split; intros H; try reflexivity; discriminate. Qed.

Lemma isEmpty_false s : Str.isEmpty s = false <-> s <> "".
Proof.
  destruct s; simpl; split; intros H; try reflexivity; try discriminate.
  exfalso; apply H; reflexivity.
Qed.

Lemma blank_false v : blank v = false <-> hasText v.
Proof.
  unfold blank, hasText. split.
  - intros H. apply orb_false_iff in H. destruct H as [_ H].
    destruct v; simpl in H; try discriminate.
    exists s. split; [ reflexivity | apply isEmpty_false, H ].
  - intros [t [-> T]]. simpl. apply isEmpty_false in T. rewrite T.
    destruct t; [ exfalso; simpl in T; discriminate | reflexivity ].
Qed.


Lemma trimmed_text v t : v = JStr t -> trimmed v = Str.trim t.
Proof. intros ->. reflexivity. Qed.


Lemma badPrice_test price :
  badPrice price <->
  negb (Js.truthy price) || Num.isNaN (Js.parseFloat price) = true.
Proof. unfold badPrice. rewrite orb_true_iff, negb_true_iff. reflexivity. Qed.

Lemma goodPrice_test price :
  ~ badPrice price ->
  negb (Js.truthy price) || Num.isNaN (Js.parseFloat price) = false.
Proof.
  intros P. destruct (negb (Js.truthy price) || Num.isNaN (Js.parseFloat price)) eqn:E;
    [ exfalso; apply P, badPrice_test, E | reflexivity ].
Qed.

(** The price is looked at once name and description have passed. *)
Lemma createProduct_bad_price now s body file :
  hasText (Js.get body "name") -> hasText (Js.get body "description") ->
  badPrice (Js.get body "price") ->
  createProduct now s body file
    = (respond 400 (Failure "Valid product price is required"), s).
Proof.
  intros N D P. apply blank_false in N. apply blank_false in D.
  apply badPrice_test in P. unfold createProduct. rewrite N, D, P. reflexivity.
Qed.

(** A product whose four fields pass is stored as the handler built it. *)
Lemma createProduct_accepted now s body file n d c :
  Js.get body "name" = JStr n -> Str.trim n <> "" ->
  Js.get body "description" = JStr d -> Str.trim d <> "" ->
  ~ badPrice (Js.get body "price") ->
  Js.get body "category" = JStr c -> Str.trim c <> "" ->
  exists p,
    createProduct now s body file
      = (respond 201 (ProductEnvelope "Product uploaded successfully" p),
         {| users := users s; products := (products s ++ [p])%list;
            orders := orders s; nextId := N.succ (nextId s) |}) /\
    Product.name p = Str.trim n /\
    Product.description p = Str.trim d /\
    Product.price p = Js.parseFloat (Js.get body "price") /\
    Product.category p = Str.trim c.
Proof.
  intros En Tn Ed Td P Ec Tc.
  assert (N : blank (Js.get body "name") = false)
    by (apply blank_false; exists n; auto).
  assert (D : blank (Js.get body "description") = false)
    by (apply blank_false; exists d; auto).
  assert (C : blank (Js.get body "category") = false)
    by (apply blank_false; exists c; auto).
  pose proof (goodPrice_test _ P) as E.
  unfold createProduct. rewrite N, D, C, E.
  apply orb_false_iff in E. destruct E as [_ E].
  unfold saveProduct, castNumber. rewrite E.
  eexists. split; [ reflexivity | ]. simpl.
  rewrite (trimmed_text _ _ En), (trimmed_text _ _ Ed), (trimmed_text _ _ Ec).
  repeat split.
Qed.



(** C10.  With the other fields in order, POST /api/products answers 400
    "Valid product price is required" to the number 0 as price, and stores
    the product with price 0 when the price is the string "0". *)
Theorem zero_price_by_representation now s body file :
  hasText (Js.get body "name") ->
  hasText (Js.get body "description") ->
  hasText (Js.get body "category") ->
  (forall n, Js.get body "price" = JNum n -> Num.isZero n = true ->
     Num.isFinite (Js.parseFloat (Js.get body "price")) = true /\
     createProduct now s body file
       = (respond 400 (Failure "Valid product price is required"), s)) /\
  (Js.get body "price" = JStr "0" ->
     exists p,
       createProduct now s body file
         = (respond 201 (ProductEnvelope "Product uploaded successfully" p),
            {| users := users s; products := (products s ++ [p])%list;
               orders := orders s; nextId := N.succ (nextId s) |}) /\
       Product.price p = Num.ofZ 0).
Proof.
  intros N D C. split.
  - intros n E Z. split.
    + rewrite E. destruct n; simpl in *; try discriminate; reflexivity.
    + apply createProduct_bad_price; try assumption. left. rewrite E. simpl.
      unfold Num.truthy. rewrite Z. apply andb_false_r.
  - intros E.
    destruct N as [n [En Tn]], D as [d [Ed Td]], C as [c [Ec Tc]].
    destruct (createProduct_accepted now s body file n d c En Tn Ed Td)
      as [p [R [_ [_ [Pp _]]]]]; try assumption.
    + rewrite E. intros [B | B]; discriminate B.
    + exists p. split; [ exact R | ]. rewrite Pp, E. reflexivity.
Qed.

Lemma zero_price_by_representation_witness :
  let product price := JObj [("name", JStr "Water"); ("description", JStr "Free");
                             ("price", price); ("category", JStr "Drinks")] in
  createProduct 7%N emptyStore (product (JNum (Num.ofZ 0))) None
    = (respond 400 (Failure "Valid product price is required"), emptyStore) /\
  exists p,
    fst (createProduct 7%N emptyStore (product (JStr "0")) None)
      = respond 201 (ProductEnvelope "Product uploaded successfully" p) /\
    Product.price p = Num.ofZ 0.
Proof.
  intros product.
  assert (T : forall price,
             hasText (Js.get (product price) "name") /\
             hasText (Js.get (product price) "description") /\
             hasText (Js.get (product price) "category")).
  { intros price. repeat split; eexists; (split; [ reflexivity | discriminate ]). }
  split.
  - destruct (T (JNum (Num.ofZ 0))) as [N [D C]].
    apply (proj1 (zero_price_by_representation 7%N emptyStore
                    (product (JNum (Num.ofZ 0))) None N D C) (Num.ofZ 0));
      reflexivity.
  - destruct (T (JStr "0")) as [N [D C]].
    destruct (proj2 (zero_price_by_representation 7%N emptyStore
                       (product (JStr "0")) None N D C) eq_refl) as [p [E P]].
    exists p. rewrite E. split; [ reflexivity | exact P ].
Defined.

(** ** Users *)

(** *** Lowercasing and trimming *)

Lemma isWhiteSpace_lowerChar c : Str.isWhiteSpace (Str.lowerChar c) = Str.isWhiteSpace c.
Proof. destruct c as [[] [] [] [] [] [] [] []]; reflexivity. Qed.

Lemma trimStart_lower s :
  Str.trimStart (Str.toLowerCase s) = Str.toLowerCase (Str.trimStart s).
Proof.
  induction s as [ | c r IH]; simpl; [ reflexivity | ].
  rewrite isWhiteSpace_lowerChar.
  destruct (Str.isWhiteSpace c); [ exact IH | reflexivity ].
Qed.

Lemma trimEnd_lower s :
  Str.trimEnd (Str.toLowerCase s) = Str.toLowerCase (Str.trimEnd s).
Proof.
  induction s as [ | c r IH]; simpl; [ reflexivity | ].
  rewrite IH, isWhiteSpace_lowerChar.
  destruct (Str.trimEnd r); simpl; [ | reflexivity ].
  destruct (Str.isWhiteSpace c); reflexivity.
Qed.

Lemma trim_lower s : Str.trim (Str.toLowerCase s) = Str.toLowerCase (Str.trim s).
Proof. unfold Str.trim. rewrite trimStart_lower, trimEnd_lower. reflexivity. Qed.

Lemma trimEnd_idem s : Str.trimEnd (Str.trimEnd s) = Str.trimEnd s.
Proof.
  induction s as [ | c r IH]; simpl; [ reflexivity | ].
  destruct (Str.trimEnd r) as [ | d t] eqn:E.
  - destruct (Str.isWhiteSpace c) eqn:W; simpl; [ reflexivity | ].
    rewrite W. reflexivity.
  - change (Str.trimEnd (String c (String d t))) with
      (match Str.trimEnd (String d t) with
       | EmptyString => if Str.isWhiteSpace c then EmptyString else String c EmptyString
       | r' => String c r'
       end).
    rewrite IH. reflexivity.
Qed.

Lemma trimStart_noLeadingSpace s : noLeadingSpace (Str.trimStart s).
Proof.
  induction s as [ | c r IH]; simpl; [ exact I | ].
  destruct (Str.isWhiteSpace c) eqn:W; [ exact IH | exact W ].
Qed.

Lemma trimStart_id s : noLeadingSpace s -> Str.trimStart s = s.
Proof. destruct s as [ | c r]; simpl; [ reflexivity | intros ->; reflexivity ]. Qed.

Lemma trimEnd_noLeadingSpace s : noLeadingSpace s -> noLeadingSpace (Str.trimEnd s).
Proof.
  destruct s as [ | c r]; simpl; [ intros; exact I | ]. intros W.
  destruct (Str.trimEnd r); simpl; [ rewrite W; simpl | ]; exact W.
Qed.

Lemma trim_idem s : Str.trim (Str.trim s) = Str.trim s.
Proof.
  unfold Str.trim.
  rewrite (trimStart_id (Str.trimEnd (Str.trimStart s))).
  - apply trimEnd_idem.
  - apply trimEnd_noLeadingSpace, trimStart_noLeadingSpace.
Qed.



Lemma splitSpaceHead_spec s :
  hasSpace (Str.splitSpaceHead s) = false /\
  exists rest,
    s = Str.splitSpaceHead s ++ rest /\
    (rest = "" \/ exists r, rest = String " "%char r).
Proof.
  induction s as [ | c r [IH1 [rest [IH2 IH3]]]]; simpl.
  - split; [ reflexivity | ]. exists "". split; [ reflexivity | left; reflexivity ].
  - destruct (Ascii.eqb c " "%char) eqn:E; simpl.
    + split; [ reflexivity | ]. apply Ascii.eqb_eq in E. subst c.
      exists (String " "%char r). split; [ reflexivity | right; eexists; reflexivity ].
    + rewrite E, IH1. split; [ reflexivity | ].
      exists rest. split; [ rewrite <- IH2; reflexivity | exact IH3 ].
Qed.

(** *** Lookup and creation *)

Lemma find_none_existsb {A} (p : A -> bool) l : find p l = None -> existsb p l = false.
Proof.
  induction l as [ | x r IH]; simpl; [ reflexivity | ].
  destruct (p x); [ discriminate | exact IH ].
Qed.


Lemma findOne_in s e u : Users.findOne s e = Some u -> In u (users s).
Proof. unfold Users.findOne. intros H. apply find_some in H. apply H. Qed.




(** *** Updates in place *)

(** What [save] writes: the document as it was handed over, its time stamp
    aside, in the place of the one with its id. *)
Lemma save_spec now s old u :
  let u' := fst (Users.save now s old u) in
  let s' := snd (Users.save now s old u) in
  User._id u' = User._id u /\ User.name u' = User.name u /\
  User.nickname u' = User.nickname u /\ User.email u' = User.email u /\
  User.phone u' = User.phone u /\ User.addresses u' = User.addresses u /\
  User.preferences u' = User.preferences u /\ User.createdAt u' = User.createdAt u /\
  users s' = Users.replace u' (users s) /\
  products s' = products s /\ orders s' = orders s /\ nextId s' = nextId s.
Proof.
  unfold Users.save. destruct (Users.sameData old u); simpl; repeat split.
Qed.

Lemma replace_in u v l :
  In v l -> User._id v = User._id u -> In u (Users.replace u l).
Proof.
  intros I E. unfold Users.replace.
  apply in_map_iff. exists v. rewrite E, N.eqb_refl. split; [ reflexivity | exact I ].
Qed.


(** C4 as the specification words it fills an empty nickname with the
    first whitespace-delimited token of the name.  The code splits at
    SPACE only: of a name with a TAB in it, the whole name becomes the
    nickname. *)
Lemma register_nickname_keeps_tab :
  let s := snd (createBasicUser 7%N emptyStore (Some "a@b.com") (Some " ")) in
  let name := "Ada" ++ tab ++ "Obi" in
  let result := registerUser 9%N s (Some name) (Some "a@b.com") (Some "0801") in
  map User.nickname (users s) = [""] /\
  status (fst result) = 200 /\
  map User.nickname (users (snd result)) = [name] /\
  specFirstToken name = "Ada" /\
  name <> specFirstToken name.
Proof. cbv zeta. repeat split. discriminate. Qed.

(** C4 (amended).  When the lowercased email of a register call finds a
    user, the stored name and phone become the ones supplied, a nickname
    that is not empty stays, an empty one becomes the part of the supplied
    name before its first SPACE, and the answer is 200 with the updated
    user. *)
Theorem register_existing now s name email phone u :
  name <> "" -> email <> "" -> phone <> "" ->
  Users.findOne s (Str.toLowerCase email) = Some u ->
  exists u' s',
    registerUser now s (Some name) (Some email) (Some phone)
      = (ok (UserEnvelope "User updated successfully" u'), s') /\
    users s' = Users.replace u' (users s) /\ In u' (users s') /\
    User.name u' = name /\ User.phone u' = phone /\
    (User.nickname u <> "" -> User.nickname u' = User.nickname u) /\
    (User.nickname u = "" ->
       User.nickname u' = Str.splitSpaceHead name /\
       hasSpace (User.nickname u') = false /\
       exists rest, name = User.nickname u' ++ rest /\
                    (rest = "" \/ exists r, rest = String " "%char r)) /\
    User._id u' = User._id u /\ User.email u' = User.email u /\
    User.addresses u' = User.addresses u /\
    User.preferences u' = User.preferences u /\
    User.createdAt u' = User.createdAt u.
Proof.
  intros Hn He Hp F.
  apply isEmpty_false in Hn. apply isEmpty_false in He. apply isEmpty_false in Hp.
  unfold registerUser, missing, text. rewrite Hn, He, Hp. cbn [orb]. rewrite F.
  set (u1 := assign (assign u (SetName name)) (SetPhone phone)).
  set (u2 := if Str.isEmpty (User.nickname u1)
             then assign u1 (SetNickname (Str.splitSpaceHead name)) else u1).
  destruct (Users.save now s u u2) as [u' s'] eqn:S.
  pose proof (save_spec now s u u2) as K. rewrite S in K. simpl in K.
  destruct K as [Ki [Kn [Kk [Ke [Kp [Ka [Kr [Kc [Ku _]]]]]]]]].
  exists u', s'. split; [ reflexivity | ].
  assert (N1 : User.nickname u1 = User.nickname u) by (destruct u; reflexivity).
  assert (F2 : User._id u2 = User._id u /\ User.name u2 = name /\
               User.phone u2 = phone /\ User.email u2 = User.email u /\
               User.addresses u2 = User.addresses u /\
               User.preferences u2 = User.preferences u /\
               User.createdAt u2 = User.createdAt u /\
               User.nickname u2 = if Str.isEmpty (User.nickname u)
                                  then Str.splitSpaceHead name
                                  else User.nickname u).
  { unfold u2. rewrite N1. unfold u1.
    destruct u; simpl. destruct (Str.isEmpty nickname); simpl; repeat split. }
  destruct F2 as [Fi [Fn [Fp [Fe [Fa [Fr [Fc Fk]]]]]]].
  split; [ exact Ku | ].
  split.
  { rewrite Ku. apply replace_in with (v := u).
    - apply (findOne_in _ _ _ F).
    - congruence. }
  split; [ congruence | ]. split; [ congruence | ].
  split.
  { intros X. apply isEmpty_false in X. rewrite Kk, Fk, X. reflexivity. }
  split.
  { intros X. apply isEmpty_true in X.
    assert (Y : User.nickname u' = Str.splitSpaceHead name).
    { rewrite Kk, Fk, X. reflexivity. }
    rewrite Y. split; [ reflexivity | ]. apply splitSpaceHead_spec. }
  repeat split; congruence.
Qed.

(** [register_existing] on the user that create-basic made with nickname
    "Chef": the nickname stays, name and phone are taken. *)
Lemma register_existing_witness :
  let s := snd (createBasicUser 7%N emptyStore (Some "a@b.com") (Some "Chef")) in
  exists u' s',
    registerUser 9%N s (Some "Ada Obi") (Some "A@B.com") (Some "0801")
      = (ok (UserEnvelope "User updated successfully" u'), s') /\
    User.name u' = "Ada Obi" /\ User.phone u' = "0801" /\
    User.nickname u' = "Chef" /\ User.email u' = "a@b.com".
Proof.
  intros s.
  destruct (register_existing 9%N s "Ada Obi" "A@B.com" "0801"
              {| User._id := 1%N; User.name := "Chef"; User.nickname := "Chef";
                 User.email := "a@b.com"; User.phone := "";
                 User.addresses := []; User.preferences := User.noPreferences;
                 User.createdAt := 7%N; User.updatedAt := 7%N |})
    as [u' [s' [R [_ [_ [Hn [Hp [Hk [_ [_ [He _]]]]]]]]]]];
    try discriminate; try reflexivity.
  exists u', s'. split; [ exact R | ].
  split; [ exact Hn | ]. split; [ exact Hp | ].
  split; [ apply Hk; discriminate | exact He ].
Defined.

(** *** PATCH /api/users/:email *)

(** The user the [forEach] of the handler leaves: every path the body
    provides holds the value provided, [email] and the paths the body
    does not name hold what they held. *)
Lemma assign_all body : forall u,
  let v := fold_left assign body u in
  User.name v = orElse (provided nameOf body) (User.name u) /\
  User.nickname v = orElse (provided nicknameOf body) (User.nickname u) /\
  User.phone v = orElse (provided phoneOf body) (User.phone u) /\
  User.addresses v = orElse (provided addressesOf body) (User.addresses u) /\
  User.preferences v = orElse (provided preferencesOf body) (User.preferences u) /\
  User.email v = User.email u /\
  User._id v = User._id u /\
  User.createdAt v = User.createdAt u.
Proof.
  induction body as [ | f r IH]; intros u; simpl.
  - repeat split.
  - destruct (IH (assign u f)) as [H1 [H2 [H3 [H4 [H5 [H6 [H7 H8]]]]]]].
    simpl in *. rewrite H1, H2, H3, H4, H5, H6, H7, H8. clear.
    destruct (provided nameOf r), (provided nicknameOf r), (provided phoneOf r),
      (provided addressesOf r), (provided preferencesOf r);
      destruct u, f; simpl; repeat split.
Qed.



(* ------------------------------------------------------------------ *)
(** * Further properties of the handlers *)

(** ** What every reachable store satisfies *)

Section Collections.
Context {A : Type} (id : A -> ObjectId).

Lemma ids_used_succ n (l : list A) :
  Forall (fun x => (id x < n)%N) l -> Forall (fun x => (id x < N.succ n)%N) l.
Proof.
  intros H. eapply Forall_impl; [ | exact H ]. simpl. intros x L. lia.
Qed.

Lemma ids_add n (l : list A) x :
  NoDup (map id l) -> Forall (fun y => (id y < n)%N) l -> id x = n ->
  NoDup (map id (l ++ [x])).
Proof.
  intros D U E. rewrite map_app. simpl.
  apply NoDup_app; [ exact D | repeat constructor; intros [] | ].
  intros i I [J | []]. apply in_map_iff in I. destruct I as [y [Y I]].
  rewrite Forall_forall in U. specialize (U y I). subst. lia.
Qed.

Lemma ids_used_add n (l : list A) x :
  Forall (fun y => (id y < n)%N) l -> id x = n ->
  Forall (fun y => (id y < N.succ n)%N) (l ++ [x]).
Proof.
  intros U E. apply Forall_app. split; [ apply ids_used_succ, U | ].
  repeat constructor. lia.
Qed.
End Collections.

Lemma NoDup_map_same {A B} (f : A -> B) l a b :
  NoDup (map f l) -> In a l -> In b l -> f a = f b -> a = b.
Proof.
  induction l as [ | x r IH]; simpl; intros D Ia Ib E; [ contradiction | ].
  inversion D as [ | ? ? N D']; subst.
  destruct Ia as [-> | Ia], Ib as [-> | Ib].
  - reflexivity.
  - exfalso. apply N. rewrite E. apply in_map, Ib.
  - exfalso. apply N. rewrite <- E. apply in_map, Ia.
  - apply IH; assumption.
Qed.

Lemma emailSetters_idem e :
  User.emailSetters (User.emailSetters e) = User.emailSetters e.
Proof.
  unfold User.emailSetters.
  rewrite <- trim_lower, toLowerCase_idem. apply trim_idem.
Qed.

(** *** Users *)

Lemma existsb_email_false e (l : list User.t) :
  existsb (fun u => String.eqb (User.email u) e) l = false ->
  ~ In e (map User.email l).
Proof.
  intros X I. apply in_map_iff in I. destruct I as [u [E I]].
  assert (T : existsb (fun u => String.eqb (User.email u) e) l = true).
  { apply existsb_exists. exists u. split; [ exact I | ]. apply String.eqb_eq, E. }
  congruence.
Qed.

Lemma usersOk_succ n l : usersOk n l -> usersOk (N.succ n) l.
Proof.
  intros [D [U [E S]]]. repeat split; try assumption. apply ids_used_succ, U.
Qed.

Lemma create_usersOk now s name nickname email phone u s' :
  usersOk (nextId s) (users s) ->
  Users.create now s name nickname email phone = Some (u, s') ->
  usersOk (nextId s') (users s') /\
  users s' = (users s ++ [u])%list /\
  products s' = products s /\ orders s' = orders s /\
  nextId s' = N.succ (nextId s) /\ User._id u = nextId s.
Proof.
  intros [D [U [E S]]] C. unfold Users.create in C.
  destruct (Str.isEmpty (User.emailSetters email)) eqn:T; [ discriminate | ].
  destruct (existsb _ (users s)) eqn:X; [ discriminate | ].
  inversion C; subst; clear C. simpl.
  repeat split.
  - apply (ids_add User._id (nextId s)); [ exact D | exact U | reflexivity ].
  - apply (ids_used_add User._id); [ exact U | reflexivity ].
  - rewrite map_app. simpl.
    apply NoDup_app; [ exact E | repeat constructor; intros [] | ].
    intros e I [J | []]. subst e. revert I. apply existsb_email_false, X.
  - apply Forall_app. split; [ exact S | ]. repeat constructor; simpl.
    + apply isEmpty_false, T.
    + apply emailSetters_idem.
Qed.

Lemma replace_ids u l :
  map User._id (Users.replace u l) = map User._id l.
Proof.
  unfold Users.replace. rewrite map_map. apply map_ext_in. intros v _.
  destruct (N.eqb (User._id v) (User._id u)) eqn:E; [ | reflexivity ].
  apply N.eqb_eq in E. symmetry. exact E.
Qed.

(** With ids of their own, [save] puts the document in the place of the
    one that was loaded and of no other. *)
Lemma replace_one old u l :
  NoDup (map User._id l) -> In old l -> User._id u = User._id old ->
  exists before after,
    l = (before ++ old :: after)%list /\
    Users.replace u l = (before ++ u :: after)%list.
Proof.
  intros D I E. destruct (in_split _ _ I) as [before [after L]].
  exists before, after. split; [ exact L | ]. subst l.
  assert (K : forall v, In v (before ++ after) ->
                        N.eqb (User._id v) (User._id u) = false).
  { intros v Iv. apply N.eqb_neq. intros X. rewrite E in X.
    rewrite map_app in D. simpl in D. apply NoDup_remove_2 in D.
    apply D. rewrite <- X, <- map_app. apply in_map, Iv. }
  unfold Users.replace. rewrite map_app. simpl.
  rewrite E, N.eqb_refl. f_equal; [ | f_equal ].
  - rewrite <- (map_id before) at 2. apply map_ext_in. intros v Iv.
    rewrite <- E, K; [ reflexivity | apply in_or_app; left; exact Iv ].
  - rewrite <- (map_id after) at 2. apply map_ext_in. intros v Iv.
    rewrite <- E, K; [ reflexivity | apply in_or_app; right; exact Iv ].
Qed.

Lemma save_usersOk now s old u :
  usersOk (nextId s) (users s) -> In old (users s) ->
  User._id u = User._id old -> User.email u = User.email old ->
  let s' := snd (Users.save now s old u) in
  usersOk (nextId s') (users s') /\
  products s' = products s /\ orders s' = orders s /\ nextId s' = nextId s.
Proof.
  intros [D [U [E S]]] I Hi He s'.
  destruct (save_spec now s old u)
    as [Ki [_ [_ [Ke [_ [_ [_ [_ [Ku [Kp [Ko Kn]]]]]]]]]]].
  fold s' in Ku, Kp, Ko, Kn.
  set (u' := fst (Users.save now s old u)) in *.
  destruct (replace_one old u' (users s) D I) as [before [after [L R]]];
    [ congruence | ].
  split; [ | repeat split; assumption ].
  rewrite Kn, Ku, R. rewrite L in D, U, E, S.
  assert (Ii : User._id u' = User._id old) by congruence.
  assert (Ie : User.email u' = User.email old) by congruence.
  repeat split.
  - rewrite map_app in *. simpl in *. rewrite Ii. exact D.
  - apply Forall_app in U. destruct U as [U1 U2]. inversion U2; subst.
    apply Forall_app. split; [ exact U1 | ]. constructor; [ | assumption ].
    rewrite Ii. assumption.
  - rewrite map_app in *. simpl in *. rewrite Ie. exact E.
  - apply Forall_app in S. destruct S as [S1 S2]. inversion S2; subst.
    apply Forall_app. split; [ exact S1 | ]. constructor; [ | assumption ].
    rewrite Ie. assumption.
Qed.

(** *** Products *)

Lemma productsOk_succ n l : productsOk n l -> productsOk (N.succ n) l.
Proof.
  intros [D [U P]]. repeat split; try assumption. apply ids_used_succ, U.
Qed.

Lemma saveProduct_inv now s name description price category imageUrl p s' :
  saveProduct now s name description price category imageUrl = Some (p, s') ->
  p = {| Product._id := nextId s; Product.name := name;
         Product.description := description; Product.price := price;
         Product.category := category; Product.imageUrl := imageUrl;
         Product.createdAt := now; Product.updatedAt := now |} /\
  Num.isNaN price = false /\
  s' = {| users := users s; products := (products s ++ [p])%list;
          orders := orders s; nextId := N.succ (nextId s) |}.
Proof.
  unfold saveProduct, castNumber.
  destruct (Num.isNaN price) eqn:E; [ discriminate | ].
  intros H. inversion H; subst. repeat split.
Qed.

Lemma removeProduct_some i l d r :
  removeProduct i l = Some (d, r) ->
  exists before after,
    l = (before ++ d :: after)%list /\ r = (before ++ after)%list /\
    Product._id d = i /\
    Forall (fun p => Product._id p <> i) before.
Proof.
  revert d r. induction l as [ | p t IH]; simpl; intros d r H; [ discriminate | ].
  destruct (N.eqb (Product._id p) i) eqn:E.
  - inversion H; subst. exists [], r. apply N.eqb_eq in E.
    repeat split; [ exact E | constructor ].
  - destruct (removeProduct i t) as [[d' r'] | ]; [ | discriminate ].
    inversion H; subst.
    destruct (IH _ _ eq_refl) as [before [after [L [R [I B]]]]].
    exists (p :: before), after. simpl. rewrite L, R.
    repeat split; [ exact I | ]. constructor; [ apply N.eqb_neq, E | exact B ].
Qed.

Lemma removeProduct_none i l :
  removeProduct i l = None <-> ~ In i (map Product._id l).
Proof.
  induction l as [ | p t IH]; simpl.
  - split; [ intros _ [] | reflexivity ].
  - destruct (N.eqb (Product._id p) i) eqn:E.
    + apply N.eqb_eq in E. split; [ discriminate | ].
      intros H. exfalso. apply H. left. exact E.
    + apply N.eqb_neq in E.
      destruct (removeProduct i t) as [[d r] | ].
      * split; [ discriminate | ]. intros H. exfalso.
        assert (X : ~ In i (map Product._id t)) by (intros I; apply H; right; exact I).
        apply IH in X. discriminate X.
      * split; [ | reflexivity ]. intros _ [X | X]; [ exact (E X) | ].
        revert X. apply IH. reflexivity.
Qed.

Lemma productsOk_remove n before d after :
  productsOk n (before ++ d :: after) -> productsOk n (before ++ after).
Proof.
  intros [D [U P]]. repeat split.
  - rewrite map_app in *. simpl in D. apply NoDup_remove_1 in D. exact D.
  - apply Forall_app in U. destruct U as [U1 U2]. inversion U2; subst.
    apply Forall_app. split; assumption.
  - apply Forall_app in P. destruct P as [P1 P2]. inversion P2; subst.
    apply Forall_app. split; assumption.
Qed.

(** *** Orders *)

Lemma ordersOk_succ n l : ordersOk n l -> ordersOk (N.succ n) l.
Proof.
  intros [D [U P]]. repeat split; try assumption. apply ids_used_succ, U.
Qed.

Lemma requiredString_some M v t : requiredString M v = Some t -> t <> "".
Proof.
  unfold requiredString. destruct (castString M v) as [[x | ] | ]; try discriminate.
  destruct (Str.isEmpty x) eqn:E; [ discriminate | ].
  intros H. inversion H; subst. apply isEmpty_false, E.
Qed.

Lemma castNumber_some n m : castNumber n = Some m -> m = n /\ Num.isNaN n = false.
Proof.
  unfold castNumber. destruct (Num.isNaN n); [ discriminate | ].
  intros H. inversion H. split; reflexivity.
Qed.

(** A saved order is complete, and gets the next id of the store. *)
Lemma saveOrder_complete M now s d o s' :
  saveOrder M now s d = Some (o, s') ->
  orderComplete o /\ Order._id o = nextId s /\ nextId s' = N.succ (nextId s) /\
  Order.createdAt o = now.
Proof.
  unfold saveOrder. intros H. split_bind H.
  inversion H; subst; clear H. unfold orderComplete. simpl.
  apply castNumber_some in E4, E5, E7.
  destruct E4 as [-> N4], E5 as [-> N5], E7 as [-> N7].
  repeat split; try assumption; eapply requiredString_some; eassumption.
Qed.

Lemma findByIdAndUpdate_ordersOk now i b n l u l' :
  ordersOk n l -> findByIdAndUpdate now i b l = Some (u, l') -> ordersOk n l'.
Proof.
  intros [D [U C]] F.
  destruct (findByIdAndUpdate_some _ _ _ _ _ _ F)
    as [before [o [after [L [_ [_ [E L']]]]]]].
  subst l l' u. repeat split.
  - rewrite map_app in *. exact D.
  - apply Forall_app in U. destruct U as [U1 U2]. inversion U2; subst.
    apply Forall_app. split; [ exact U1 | constructor; assumption ].
  - apply Forall_app in C. destruct C as [C1 C2]. inversion C2; subst.
    apply Forall_app. split; [ exact C1 | constructor; assumption ].
Qed.

(** *** Every route keeps the store well formed *)

Lemma wellFormed_created now s name nickname email phone u s' :
  wellFormed s ->
  Users.create now s name nickname email phone = Some (u, s') ->
  wellFormed s'.
Proof.
  intros [Hu [Hp Ho]] C.
  destruct (create_usersOk _ _ _ _ _ _ _ _ Hu C) as [Ku [_ [Kp [Ko [Kn _]]]]].
  split; [ exact Ku | ]. rewrite Kp, Ko, Kn.
  split; [ apply productsOk_succ, Hp | apply ordersOk_succ, Ho ].
Qed.

Lemma wellFormed_saved now s old u :
  wellFormed s -> In old (users s) ->
  User._id u = User._id old -> User.email u = User.email old ->
  wellFormed (snd (Users.save now s old u)).
Proof.
  intros [Hu [Hp Ho]] I Hi He.
  destruct (save_usersOk now s old u Hu I Hi He) as [Ku [Kp [Ko Kn]]].
  split; [ exact Ku | ]. rewrite Kp, Ko, Kn. split; assumption.
Qed.

Lemma createBasicUser_wellFormed now s e n :
  wellFormed s -> wellFormed (snd (createBasicUser now s e n)).
Proof.
  intros W. unfold createBasicUser.
  destruct (missing e || missing n); [ exact W | ].
  destruct (Users.findOne s _); [ exact W | ].
  destruct (Users.create now s _ _ _ _) as [[u s'] | ] eqn:C; [ | exact W ].
  simpl. eapply wellFormed_created; eassumption.
Qed.

Lemma patchUser_store now s email body :
  snd (patchUser now s email body)
    = match Users.findOne s (Str.toLowerCase email) with
      | Some u => snd (Users.save now s u (fold_left assign body u))
      | None => s
      end.
Proof.
  unfold patchUser. destruct (Users.findOne s _) as [u | ]; [ | reflexivity ].
  destruct (Users.save now s u (fold_left assign body u)); reflexivity.
Qed.

Lemma patchUser_wellFormed now s email body :
  wellFormed s -> wellFormed (snd (patchUser now s email body)).
Proof.
  intros W. rewrite patchUser_store.
  destruct (Users.findOne s _) as [u | ] eqn:F; [ | exact W ].
  destruct (assign_all body u) as [_ [_ [_ [_ [_ [He [Hi _]]]]]]].
  apply wellFormed_saved; try assumption. apply (findOne_in _ _ _ F).
Qed.

Lemma registered_same u name phone :
  User._id (registered u name phone) = User._id u /\
  User.email (registered u name phone) = User.email u.
Proof.
  unfold registered. destruct u; simpl.
  destruct (Str.isEmpty nickname); simpl; split; reflexivity.
Qed.

Lemma registerUser_store now s name email phone :
  snd (registerUser now s name email phone)
    = if missing name || missing email || missing phone then s
      else match Users.findOne s (Str.toLowerCase (text email)) with
           | Some u => snd (Users.save now s u (registered u (text name) (text phone)))
           | None =>
               match Users.create now s (text name) (Str.splitSpaceHead (text name))
                       (Str.toLowerCase (text email)) (text phone) with
               | Some (_, s') => s'
               | None => s
               end
           end.
Proof.
  unfold registerUser, registered.
  destruct (missing name || missing email || missing phone); [ reflexivity | ].
  destruct (Users.findOne s _) as [u | ].
  - destruct (Users.save now s u _); reflexivity.
  - destruct (Users.create now s _ _ _ _) as [[u s'] | ]; reflexivity.
Qed.

Lemma registerUser_wellFormed now s name email phone :
  wellFormed s -> wellFormed (snd (registerUser now s name email phone)).
Proof.
  intros W. rewrite registerUser_store.
  destruct (missing name || missing email || missing phone); [ exact W | ].
  destruct (Users.findOne s _) as [u | ] eqn:F.
  - destruct (registered_same u (text name) (text phone)) as [Hi He].
    apply wellFormed_saved; try assumption. apply (findOne_in _ _ _ F).
  - destruct (Users.create now s _ _ _ _) as [[u s'] | ] eqn:C; [ | exact W ].
    eapply wellFormed_created; eassumption.
Qed.

Lemma createProduct_store now s body file :
  snd (createProduct now s body file) = s \/
  exists p,
    fst (createProduct now s body file)
      = respond 201 (ProductEnvelope "Product uploaded successfully" p) /\
    Product._id p = nextId s /\ Product.createdAt p = now /\
    Num.isNaN (Product.price p) = false /\
    snd (createProduct now s body file)
      = {| users := users s; products := (products s ++ [p])%list;
           orders := orders s; nextId := N.succ (nextId s) |}.
Proof.
  unfold createProduct.
  destruct (blank _); [ left; reflexivity | ].
  destruct (blank _); [ left; reflexivity | ].
  destruct (_ || _); [ left; reflexivity | ].
  destruct (blank _); [ left; reflexivity | ].
  destruct (saveProduct now s _ _ _ _ _) as [[p s'] | ] eqn:S; [ | left; reflexivity ].
  apply saveProduct_inv in S. destruct S as [P [N S]].
  right. exists p. subst s'. simpl. split; [ reflexivity | ].
  rewrite P. simpl. repeat split. exact N.
Qed.

Lemma createProduct_wellFormed now s body file :
  wellFormed s -> wellFormed (snd (createProduct now s body file)).
Proof.
  intros W. destruct (createProduct_store now s body file) as [-> | [p [_ [I [_ [N ->]]]]]];
    [ exact W | ].
  destruct W as [Hu [[D [U P]] Ho]].
  split; [ apply usersOk_succ, Hu | ]. split; [ | apply ordersOk_succ, Ho ].
  simpl. repeat split.
  - apply (ids_add Product._id (nextId s)); assumption.
  - apply (ids_used_add Product._id); assumption.
  - apply Forall_app. split; [ exact P | repeat constructor; exact N ].
Qed.

Lemma deleteProduct_wellFormed s id :
  wellFormed s -> wellFormed (snd (deleteProduct s id)).
Proof.
  intros W. unfold deleteProduct.
  destruct (ObjId.parse id) as [i | ]; [ | exact W ].
  destruct (removeProduct i (products s)) as [[d r] | ] eqn:R; [ | exact W ].
  destruct (removeProduct_some _ _ _ _ R) as [before [after [L [-> _]]]].
  destruct W as [Hu [Hp Ho]]. repeat split; try apply Hu; try apply Ho; simpl;
    rewrite L in Hp; apply (productsOk_remove _ _ _ _ Hp).
Qed.

Lemma createOrder_store M now s order :
  snd (createOrder M now s order) = s \/
  exists o,
    fst (createOrder M now s order)
      = respond 201 (OrderPlaced "Order placed successfully" (Order._id o) o) /\
    saveOrder M now s (orderData order) = Some (o, snd (createOrder M now s order)).
Proof.
  destruct (createOrder M now s order) as [r s'] eqn:H.
  destruct (Nat.eq_dec (status r) 201) as [St | St].
  - right. destruct (createOrder_201 _ _ _ _ _ _ H St) as [o [Sv ->]].
    exists o. split; [ reflexivity | exact Sv ].
  - left. pose proof (createOrder_rejected M now s order) as R.
    rewrite H in R. apply R, St.
Qed.

Lemma createOrder_wellFormed M now s order :
  wellFormed s -> wellFormed (snd (createOrder M now s order)).
Proof.
  intros W. destruct (createOrder_store M now s order) as [-> | [o [_ S]]];
    [ exact W | ].
  destruct (saveOrder_inv _ _ _ _ _ _ S) as [_ [_ [_ [_ [_ [_ [Ko [Ku Kp]]]]]]]].
  destruct (saveOrder_complete _ _ _ _ _ _ S) as [C [I [Kn _]]].
  destruct W as [Hu [Hp [D [U P]]]].
  split; [ rewrite Ku, Kn; apply usersOk_succ, Hu | ].
  split; [ rewrite Kp, Kn; apply productsOk_succ, Hp | ].
  rewrite Ko, Kn. repeat split.
  - apply (ids_add Order._id (nextId s)); assumption.
  - apply (ids_used_add Order._id); assumption.
  - apply Forall_app. split; [ exact P | repeat constructor; apply C ].
Qed.

Lemma patchOrder_wellFormed now s id fulfilled :
  wellFormed s -> wellFormed (snd (patchOrder now s id fulfilled)).
Proof.
  intros W. unfold patchOrder.
  destruct (ObjId.parse id) as [i | ]; [ | exact W ].
  destruct (findByIdAndUpdate now i fulfilled (orders s)) as [[u l] | ] eqn:F;
    [ | exact W ].
  destruct W as [Hu [Hp Ho]]. repeat split; try apply Hu; try apply Hp; simpl;
    apply (findByIdAndUpdate_ordersOk _ _ _ _ _ _ _ Ho F).
Qed.

Lemma handle_wellFormed M now s r :
  wellFormed s -> wellFormed (snd (handle M now s r)).
Proof.
  intros W. destruct r; simpl.
  - apply createBasicUser_wellFormed, W.
  - unfold getUser. destruct (Users.findOne s _); exact W.
  - apply patchUser_wellFormed, W.
  - apply registerUser_wellFormed, W.
  - exact W.
  - exact W.
  - apply createProduct_wellFormed, W.
  - exact W.
  - apply deleteProduct_wellFormed, W.
  - apply createOrder_wellFormed, W.
  - exact W.
  - apply patchOrder_wellFormed, W.
Qed.

Lemma emptyStore_wellFormed : wellFormed emptyStore.
Proof. repeat split; constructor. Qed.

(** X1.  Whatever requests were served since the store was empty, in each
    collection the documents have ids of their own, below the id the next
    document will get; no two users have the same email, and every stored
    email is not empty and is as lowercasing and trimming leave it; every
    stored product has a price that is a number; every stored order has a
    customer name, address, phone and email and a payment method that are
    not empty, and amounts that are numbers. *)
Theorem reachable_wellFormed M s : reachable M s -> wellFormed s.
Proof.
  induction 1 as [ | now s r _ IH].
  - apply emptyStore_wellFormed.
  - apply handle_wellFormed, IH.
Qed.

(** [reachable_wellFormed] on the store after a user, an order and a
    status update. *)
Lemma reachable_wellFormed_witness :
  wellFormed
    (snd (handle Plain.casters 9%N
            (snd (handle Plain.casters 8%N
                    (snd (handle Plain.casters 7%N emptyStore
                            (PostCreateBasic (Some "a@b.com") (Some "Ada"))))
                    (PostOrder (burgerOrder []))))
            (PatchOrder "000000000000000000000002" true))).
Proof.
  apply (reachable_wellFormed Plain.casters). repeat constructor.
Defined.

(** ** Requests that do not write *)

Ltac branches :=
  repeat match goal with
         | |- context [match ?x with _ => _ end] => destruct x
         end.

(** X2.  A request that is answered with a status of 400 or above leaves
    the store exactly as it was, and so does every GET request, whatever
    the answer. *)
Theorem no_write_on_failure_or_get M now s r :
  400 <= status (fst (handle M now s r)) \/ isGet r = true ->
  snd (handle M now s r) = s.
Proof.
  intros [H | H].
  - destruct r; simpl in *.
    + revert H. unfold createBasicUser. branches; simpl; intros; try reflexivity; lia.
    + unfold getUser. branches; reflexivity.
    + revert H. unfold patchUser. branches; simpl; intros; try reflexivity; lia.
    + revert H. unfold registerUser. branches; simpl; intros; try reflexivity; lia.
    + reflexivity.
    + reflexivity.
    + revert H. unfold createProduct. branches; simpl; intros; try reflexivity; lia.
    + reflexivity.
    + revert H. unfold deleteProduct. branches; simpl; intros; try reflexivity; lia.
    + apply createOrder_rejected. lia.
    + reflexivity.
    + revert H. unfold patchOrder. branches; simpl; intros; try reflexivity; lia.
  - destruct r; simpl in *; try discriminate H; try reflexivity.
    unfold getUser. destruct (Users.findOne s _); reflexivity.
Qed.

(** [no_write_on_failure_or_get] at a product without price, and at a
    lookup. *)
Lemma no_write_on_failure_or_get_witness :
  let s := snd (createBasicUser 7%N emptyStore (Some "a@b.com") (Some "Ada")) in
  snd (handle Plain.casters 9%N s
         (PostProduct (JObj [("name", JStr "Suya"); ("description", JStr "Spicy")]) None))
    = s /\
  snd (handle Plain.casters 9%N s (GetUser "A@B.com")) = s.
Proof.
  intros s. split.
  - apply no_write_on_failure_or_get. left. vm_compute. lia.
  - apply no_write_on_failure_or_get. right. reflexivity.
Defined.

(** ** Creating and finding users *)

Lemma findOne_none_existsb s e e' :
  User.emailSetters e' = User.emailSetters e ->
  Users.findOne s e = None ->
  existsb (fun u => String.eqb (User.email u) (User.emailSetters e')) (users s) = false.
Proof.
  intros E F. rewrite E. apply find_none_existsb. exact F.
Qed.





(** ** Registering and patching users, and reading them back *)

Lemma find_app {A} (p : A -> bool) l m :
  find p (l ++ m) = match find p l with Some x => Some x | None => find p m end.
Proof.
  induction l as [ | x r IH]; simpl; [ reflexivity | ].
  destruct (p x); [ reflexivity | exact IH ].
Qed.

Lemma find_none_iff {A} (p : A -> bool) l :
  find p l = None <-> forall x, In x l -> p x = false.
Proof.
  split.
  - intros H x I. apply (find_none _ _ H _ I).
  - induction l as [ | y r IH]; simpl; intros H; [ reflexivity | ].
    rewrite (H y (or_introl eq_refl)). apply IH. intros x I. apply H. right. exact I.
Qed.

(** In a store whose users have ids and addresses of their own, the user
    [save] wrote is the one its address finds afterwards. *)
Lemma findOne_saved now s old u e :
  usersOk (nextId s) (users s) ->
  Users.findOne s e = Some old ->
  User._id u = User._id old -> User.email u = User.email old ->
  Users.findOne (snd (Users.save now s old u)) e = Some (fst (Users.save now s old u)) /\
  List.length (users (snd (Users.save now s old u))) = List.length (users s).
Proof.
  intros [D [_ [E _]]] F Hi He.
  destruct (save_spec now s old u)
    as [Ki [_ [_ [Ke [_ [_ [_ [_ [Ku _]]]]]]]]].
  set (u' := fst (Users.save now s old u)) in *.
  set (s' := snd (Users.save now s old u)) in *.
  pose proof (findOne_in _ _ _ F) as I.
  destruct (replace_one old u' (users s) D I) as [before [after [L R]]];
    [ congruence | ].
  unfold Users.findOne in *. rewrite Ku, R. rewrite L in F, E.
  split; [ | rewrite L, !length_app; reflexivity ].
  pose proof (find_some _ _ F) as [_ P].
  assert (B : find (fun x => String.eqb (User.email x) (User.emailSetters e)) before = None).
  { apply find_none_iff. intros x Ix.
    destruct (String.eqb (User.email x) (User.emailSetters e)) eqn:X; [ | reflexivity ].
    exfalso. apply String.eqb_eq in X, P.
    rewrite map_app in E. simpl in E. apply NoDup_remove_2 in E. apply E.
    apply in_or_app. left. rewrite P, <- X. apply in_map, Ix. }
  rewrite find_app, B. simpl.
  replace (User.email u') with (User.email old) by congruence.
  rewrite P. reflexivity.
Qed.





(** X6.  On a reachable store, PATCH /api/users/:email on a user that
    exists rewrites that one user in place (the users before and after it
    in the collection are the same documents as before), and a following
    GET /api/users/:email answers with the user the PATCH answered with. *)
Theorem patch_then_get now s email body u :
  wellFormed s ->
  Users.findOne s (Str.toLowerCase email) = Some u ->
  exists u' s' before after,
    patchUser now s email body
      = (ok (UserEnvelope "User updated successfully" u'), s') /\
    users s = (before ++ u :: after)%list /\
    users s' = (before ++ u' :: after)%list /\
    getUser s' email = (ok (UserJson u'), s').
Proof.
  intros W F.
  destruct (assign_all body u) as [_ [_ [_ [_ [_ [He [Hi _]]]]]]].
  destruct (findOne_saved now s u (fold_left assign body u) (Str.toLowerCase email)
              (proj1 W) F Hi He) as [F' _].
  destruct (save_spec now s u (fold_left assign body u))
    as [Ki [_ [_ [_ [_ [_ [_ [_ [Ku _]]]]]]]]].
  destruct (replace_one u (fst (Users.save now s u (fold_left assign body u))) (users s))
    as [before [after [L R]]].
  - apply W.
  - apply (findOne_in _ _ _ F).
  - congruence.
  - unfold patchUser, getUser. rewrite F.
    destruct (Users.save now s u (fold_left assign body u)) as [u' s'] eqn:S.
    simpl in *. exists u', s', before, after.
    split; [ reflexivity | ]. split; [ exact L | ].
    split; [ rewrite Ku; exact R | ]. rewrite F'. reflexivity.
Qed.

(** [patch_then_get] with two users in the store. *)
Lemma patch_then_get_witness :
  let s1 := snd (createBasicUser 7%N emptyStore (Some "ada@b.com") (Some "Ada")) in
  let s := snd (createBasicUser 8%N s1 (Some "obi@b.com") (Some "Obi")) in
  let s' := snd (patchUser 9%N s "OBI@b.com" [SetPhone "0801"]) in
  exists u',
    getUser s' "OBI@b.com" = (ok (UserJson u'), s') /\
    map User.phone (users s') = [""; "0801"].
Proof.
  intros s1 s s'.
  destruct (patch_then_get 9%N s "OBI@b.com" [SetPhone "0801"]
              {| User._id := 2%N; User.name := "Obi"; User.nickname := "Obi";
                 User.email := "obi@b.com"; User.phone := "";
                 User.addresses := []; User.preferences := User.noPreferences;
                 User.createdAt := 8%N; User.updatedAt := 8%N |})
    as [u' [t [before [after [P [_ [_ G]]]]]]].
  - apply createBasicUser_wellFormed, createBasicUser_wellFormed, emptyStore_wellFormed.
  - reflexivity.
  - exists u'. unfold s'. rewrite P. simpl. split; [ exact G | ].
    inversion P. reflexivity.
Defined.

(** ** Listings of users and products *)


Section NewestLast.
Context {A : Type} (key : A -> Time).

(** A document newer than all of a collection, stored at its end, is the
    first of the sorted collection. *)
Lemma sortNewestFirst_newest (l : list A) x :
  Forall (fun y => (key y < key x)%N) l ->
  sortNewestFirst key (l ++ [x]) = x :: sortNewestFirst key l.
Proof.
  induction l as [ | y r IH]; simpl; intros H; [ reflexivity | ].
  inversion H as [ | ? ? Hy Hr]; subst.
  unfold sortNewestFirst in *. simpl. rewrite (IH Hr). simpl.
  assert (C : (key x <? key y)%N = false) by (apply N.ltb_ge; lia).
  rewrite C. reflexivity.
Qed.
End NewestLast.

(** X8.  When the clock has moved on since the stored orders were
    created, an order POST /api/orders accepts is the first of the next
    full listing, followed by the listing as it was. *)
Theorem new_order_heads_listing M now s order r s' :
  createOrder M now s order = (r, s') ->
  status r = 201 ->
  Forall (fun o => (Order.createdAt o < now)%N) (orders s) ->
  exists o previous,
    r = respond 201 (OrderPlaced "Order placed successfully" (Order._id o) o) /\
    listOrders s None = (ok (OrdersJson previous), s) /\
    listOrders s' None = (ok (OrdersJson (o :: previous)), s').
Proof.
  intros H St T.
  destruct (createOrder_201 _ _ _ _ _ _ H St) as [o [Sv ->]].
  destruct (saveOrder_inv _ _ _ _ _ _ Sv) as [_ [_ [_ [_ [_ [_ [Ko _]]]]]]].
  destruct (saveOrder_complete _ _ _ _ _ _ Sv) as [_ [_ [_ Kc]]].
  exists o, (sortNewestFirst Order.createdAt (orders s)).
  split; [ reflexivity | ]. split; [ reflexivity | ].
  unfold listOrders. simpl. rewrite Ko.
  rewrite sortNewestFirst_newest; [ reflexivity | ].
  rewrite Kc. exact T.
Qed.

Lemma new_order_heads_listing_witness :
  let s := snd (createOrder Plain.casters 7%N emptyStore (burgerOrder [])) in
  let s' := snd (createOrder Plain.casters 9%N s (burgerOrder [("orderReference", JStr "R2")])) in
  exists o previous,
    listOrders s' None = (ok (OrdersJson (o :: previous)), s') /\
    Order.orderReference o = Some "R2" /\ List.length previous = 1.
Proof.
  intros s s'.
  destruct (new_order_heads_listing Plain.casters 9%N s
              (burgerOrder [("orderReference", JStr "R2")])
              (fst (createOrder Plain.casters 9%N s
                      (burgerOrder [("orderReference", JStr "R2")]))) s')
    as [o [previous [R [P L]]]].
  - reflexivity.
  - reflexivity.
  - repeat constructor.
  - exists o, previous. split; [ exact L | ].
    inversion R. inversion P. split; reflexivity.
Defined.

(** ** Deleting products *)

(** X9.  DELETE /api/products/:id answers 500 exactly when the id is not
    a well-formed ObjectId, 404 exactly when it is well formed and no
    stored product has it, and otherwise 200: the product with that id is
    taken out, the other products stay in their order and users and orders
    are not touched.  On a reachable store the same request then answers
    404. *)
Theorem deleteProduct_spec s id :
  (status (fst (deleteProduct s id)) = 500 <-> ObjId.parse id = None) /\
  (status (fst (deleteProduct s id)) = 404 <->
     exists i, ObjId.parse id = Some i /\ ~ In i (map Product._id (products s))) /\
  (forall i, ObjId.parse id = Some i -> In i (map Product._id (products s)) ->
     exists before d after,
       products s = (before ++ d :: after)%list /\
       Product._id d = i /\
       deleteProduct s id
         = (ok (Message "Product deleted successfully"),
            {| users := users s; products := (before ++ after)%list;
               orders := orders s; nextId := nextId s |}) /\
       (wellFormed s ->
        status (fst (deleteProduct (snd (deleteProduct s id)) id)) = 404)).
Proof.
  unfold deleteProduct.
  destruct (ObjId.parse id) as [i | ] eqn:P.
  - destruct (removeProduct i (products s)) as [[d r] | ] eqn:R.
    + destruct (removeProduct_some _ _ _ _ R) as [before [after [L [Er [I B]]]]].
      assert (In i (map Product._id (products s))) as Ii.
      { rewrite L, map_app. apply in_or_app. right. left. exact I. }
      split; [ split; discriminate | ]. split.
      * split; [ discriminate | ]. intros [j [J N]]. inversion J; subst j. contradiction.
      * intros j J _. inversion J; subst j. exists before, d, after.
        split; [ exact L | ]. split; [ exact I | ]. subst r.
        split; [ reflexivity | ]. intros W. simpl.
        assert (X : removeProduct i (before ++ after) = None).
        { apply removeProduct_none. destruct W as [_ [[D _] _]].
          rewrite L, map_app in D. simpl in D. apply NoDup_remove_2 in D.
          rewrite map_app, I in *. exact D. }
        rewrite X. reflexivity.
    + pose proof (proj1 (removeProduct_none _ _) R) as N.
      split; [ split; discriminate | ]. split.
      * split; [ | reflexivity ]. intros _. exists i. split; [ reflexivity | exact N ].
      * intros j J Ij. inversion J; subst j. contradiction.
  - split; [ split; reflexivity | ]. split.
    + split; [ discriminate | ]. intros [j [J _]]. discriminate J.
    + intros j J. discriminate J.
Qed.

(** [deleteProduct_spec] on a store with one product, deleted twice. *)
Lemma deleteProduct_spec_witness :
  let body := JObj [("name", JStr "Suya"); ("description", JStr "Spicy");
                    ("price", JStr "1500"); ("category", JStr "Grill")] in
  let s := snd (createProduct 7%N emptyStore body None) in
  let id := "000000000000000000000001" in
  products (snd (deleteProduct s id)) = [] /\
  status (fst (deleteProduct (snd (deleteProduct s id)) id)) = 404.
Proof.
  intros body s id.
  destruct (proj2 (proj2 (deleteProduct_spec s id)) 1%N eq_refl)
    as [before [d [after [L [_ [D T]]]]]].
  - left. reflexivity.
  - split.
    + rewrite D. simpl.
      destruct before as [ | x before]; [ | destruct before; discriminate L ].
      destruct after; [ reflexivity | discriminate L ].
    + apply T. apply createProduct_wellFormed, emptyStore_wellFormed.
Defined.

Lemma removeProduct_new i (l : list Product.t) p :
  Forall (fun x => (Product._id x < i)%N) l -> Product._id p = i ->
  removeProduct i (l ++ [p]) = Some (p, l).
Proof.
  intros U E. induction l as [ | x r IH]; simpl.
  - rewrite E, N.eqb_refl. reflexivity.
  - inversion U as [ | ? ? Hx Hr]; subst.
    assert (C : N.eqb (Product._id x) (Product._id p) = false)
      by (apply N.eqb_neq; lia).
    rewrite C, (IH Hr). reflexivity.
Qed.

(** A product that was answered with 201 was saved. *)
Lemma createProduct_201 now s body file r s' :
  createProduct now s body file = (r, s') ->
  status r = 201 ->
  exists p,
    r = respond 201 (ProductEnvelope "Product uploaded successfully" p) /\
    p = {| Product._id := nextId s;
           Product.name := trimmed (Js.get body "name");
           Product.description := trimmed (Js.get body "description");
           Product.price := Js.parseFloat (Js.get body "price");
           Product.category := trimmed (Js.get body "category");
           Product.imageUrl :=
             match file with Some filename => "/uploads/" ++ filename | None => "" end;
           Product.createdAt := now; Product.updatedAt := now |} /\
    s' = {| users := users s; products := (products s ++ [p])%list;
            orders := orders s; nextId := N.succ (nextId s) |}.
Proof.
  unfold createProduct. intros H St.
  destruct (blank _); [ inversion H; subst; discriminate St | ].
  destruct (blank _); [ inversion H; subst; discriminate St | ].
  destruct (_ || _); [ inversion H; subst; discriminate St | ].
  destruct (blank _); [ inversion H; subst; discriminate St | ].
  destruct (saveProduct now s _ _ _ _ _) as [[p t] | ] eqn:S;
    [ | inversion H; subst; discriminate St ].
  inversion H; subst r t. exists p.
  destruct (saveProduct_inv _ _ _ _ _ _ _ _ _ S) as [P [_ E]].
  split; [ reflexivity | ]. split; assumption.
Qed.

(** X10.  On a reachable store, deleting the product POST /api/products
    has just created, by the id it was answered with, gives back the
    collection of products as it was before; the id is not handed out
    again. *)
Theorem create_then_delete_product now s body file p s' id :
  wellFormed s ->
  createProduct now s body file
    = (respond 201 (ProductEnvelope "Product uploaded successfully" p), s') ->
  ObjId.parse id = Some (Product._id p) ->
  deleteProduct s' id
    = (ok (Message "Product deleted successfully"),
       {| users := users s; products := products s; orders := orders s;
          nextId := N.succ (nextId s) |}) /\
  (Product._id p < nextId s')%N.
Proof.
  intros W C P.
  destruct (createProduct_201 _ _ _ _ _ _ C eq_refl) as [q [R [Q S]]].
  inversion R as [E]. rewrite <- E in *. clear E q R.
  assert (I : Product._id p = nextId s) by (rewrite Q; reflexivity).
  subst s'. unfold deleteProduct. rewrite P, I. simpl.
  rewrite (removeProduct_new (nextId s) (products s) p);
    [ | apply W | exact I ].
  split; [ reflexivity | lia ].
Qed.

Lemma create_then_delete_product_witness :
  let body := JObj [("name", JStr "Suya"); ("description", JStr "Spicy");
                    ("price", JStr "1500"); ("category", JStr "Grill")] in
  let s := snd (createProduct 7%N emptyStore body None) in
  let s' := snd (createProduct 8%N s body (Some "8-suya.png")) in
  products (snd (deleteProduct s' "000000000000000000000002")) = products s.
Proof.
  intros body s s'.
  destruct (create_then_delete_product 8%N s body (Some "8-suya.png")
              {| Product._id := 2%N; Product.name := "Suya";
                 Product.description := "Spicy"; Product.price := Num.ofZ 1500;
                 Product.category := "Grill"; Product.imageUrl := "/uploads/8-suya.png";
                 Product.createdAt := 8%N; Product.updatedAt := 8%N |}
              s' "000000000000000000000002") as [D _].
  - apply createProduct_wellFormed, emptyStore_wellFormed.
  - reflexivity.
  - reflexivity.
  - rewrite D. reflexivity.
Defined.

(** ** What an accepted order holds *)

Lemma saveOrder_paths M now s d o s' :
  saveOrder M now s d = Some (o, s') ->
  requiredString M (d_customer_name d) = Some (Order.name (Order.customer o)) /\
  requiredString M (d_customer_address d) = Some (Order.address (Order.customer o)) /\
  requiredString M (d_customer_phone d) = Some (Order.phone (Order.customer o)) /\
  requiredString M (d_customer_email d) = Some (Order.email (Order.customer o)) /\
  castItems M (d_items d) = Some (Order.items o) /\
  castLocation M (d_deliveryLocation d) = Some (Order.deliveryLocation o) /\
  requiredString M (d_paymentMethod d) = Some (Order.paymentMethod o) /\
  castString M (d_paymentReference d) = Some (Order.paymentReference o) /\
  castString M (d_paymentStatus d) = Some (Order.paymentStatus o) /\
  castString M (d_orderReference d) = Some (Order.orderReference o).
Proof.
  unfold saveOrder. intros H. split_bind H.
  inversion H; subst; simpl. repeat split; assumption.
Qed.



(** ** Orders: created, then listed and updated *)

(** X12.  An order POST /api/orders has accepted is in the listing GET
    /api/orders gives for its customer's email, and every order of that
    listing has that email. *)
Theorem accepted_order_is_listed M now s order r s' :
  createOrder M now s order = (r, s') -> status r = 201 ->
  exists o l,
    r = respond 201 (OrderPlaced "Order placed successfully" (Order._id o) o) /\
    requiredString M (Js.get (Js.get order "customer") "email")
      = Some (Order.email (Order.customer o)) /\
    listOrders s' (Some (Order.email (Order.customer o))) = (ok (OrdersJson l), s') /\
    In o l /\
    Forall (fun x => Order.email (Order.customer x) = Order.email (Order.customer o)) l.
Proof.
  intros H St.
  destruct (createOrder_201 _ _ _ _ _ _ H St) as [o [Sv ->]].
  destruct (saveOrder_inv _ _ _ _ _ _ Sv) as [_ [_ [_ [_ [_ [_ [Ko _]]]]]]].
  destruct (saveOrder_complete _ _ _ _ _ _ Sv) as [[_ [_ [_ [Ne _]]]] _].
  destruct (saveOrder_paths _ _ _ _ _ _ Sv) as [_ [_ [_ [He _]]]].
  exists o. eexists. split; [ reflexivity | ]. split; [ exact He | ].
  set (e := Order.email (Order.customer o)) in *.
  unfold listOrders. apply isEmpty_false in Ne. rewrite Ne.
  split; [ reflexivity | ]. simpl.
  assert (P : forall x,
             In x (sortNewestFirst Order.createdAt
                     (List.filter (fun x => String.eqb (Order.email (Order.customer x)) e)
                                  (orders s'))) <->
             In x (orders s') /\ Order.email (Order.customer x) = e).
  { intros x. rewrite <- String.eqb_eq.
    rewrite <- (filter_In (fun x => String.eqb (Order.email (Order.customer x)) e)).
    split; apply Permutation_in;
      [ apply Permutation_sym | ]; apply sortNewestFirst_perm. }
  split.
  - apply P. split; [ | reflexivity ]. rewrite Ko. apply in_or_app. right. left. reflexivity.
  - apply Forall_forall. intros x Ix. apply P in Ix. apply Ix.
Qed.

Lemma accepted_order_is_listed_witness :
  let s := snd (createOrder Plain.casters 7%N emptyStore (burgerOrder [])) in
  exists o l,
    listOrders s (Some "a@b.com") = (ok (OrdersJson l), s) /\ In o l /\
    Order.paymentMethod o = "cash".
Proof.
  intros s.
  destruct (accepted_order_is_listed Plain.casters 7%N emptyStore (burgerOrder [])
              (fst (createOrder Plain.casters 7%N emptyStore (burgerOrder []))) s
              eq_refl eq_refl) as [o [l [R [E [L [I _]]]]]].
  exists o, l. simpl in E. inversion E as [X].
  split; [ rewrite X; exact L | ]. split; [ exact I | ].
  inversion R. reflexivity.
Defined.

Lemma findByIdAndUpdate_new now i b (l : list Order.t) o :
  Forall (fun x => (Order._id x < i)%N) l -> Order._id o = i ->
  findByIdAndUpdate now i b (l ++ [o])
    = Some (setFulfilled now b o, (l ++ [setFulfilled now b o])%list).
Proof.
  intros U E. induction l as [ | x r IH]; simpl.
  - rewrite E, N.eqb_refl. reflexivity.
  - inversion U as [ | ? ? Hx Hr]; subst.
    assert (C : N.eqb (Order._id x) (Order._id o) = false) by (apply N.eqb_neq; lia).
    rewrite C, (IH Hr). reflexivity.
Qed.

(** X13.  On a reachable store, PATCH /api/orders/:id with the orderId
    POST /api/orders answered with finds the order just created: the
    answer is 200 with that order, [fulfilled] as the body says, and no
    order stored before is touched. *)
Theorem create_then_patch_order M now now' s order o s' id fulfilled :
  wellFormed s ->
  createOrder M now s order
    = (respond 201 (OrderPlaced "Order placed successfully" (Order._id o) o), s') ->
  ObjId.parse id = Some (Order._id o) ->
  let u := setFulfilled now' fulfilled o in
  patchOrder now' s' id fulfilled
    = (ok (OrderEnvelope "Order status updated successfully" u),
       {| users := users s'; products := products s';
          orders := (orders s ++ [u])%list; nextId := nextId s' |}) /\
  Order.fulfilled o = false /\ Order.fulfilled u = fulfilled /\ sameButFulfilled o u.
Proof.
  intros W C P u.
  destruct (createOrder_201 _ _ _ _ _ _ C eq_refl) as [q [Sv R]].
  inversion R as [[I E]]. rewrite <- E in *. clear E I R q.
  destruct (saveOrder_inv _ _ _ _ _ _ Sv) as [_ [_ [_ [Hf [_ [_ [Ko _]]]]]]].
  destruct (saveOrder_complete _ _ _ _ _ _ Sv) as [_ [Ki _]].
  split; [ | split; [ exact Hf | split; [ reflexivity | repeat split ] ] ].
  unfold patchOrder. rewrite P, Ko, Ki.
  rewrite (findByIdAndUpdate_new now' (nextId s) fulfilled (orders s) o);
    [ reflexivity | apply W | exact Ki ].
Qed.

Lemma create_then_patch_order_witness :
  let s := snd (createOrder Plain.casters 7%N emptyStore (burgerOrder [])) in
  let s' := snd (createOrder Plain.casters 8%N s (burgerOrder [])) in
  map Order.fulfilled (orders (snd (patchOrder 9%N s' "000000000000000000000002" true)))
    = [false; true].
Proof.
  intros s s'.
  pose (o := {| Order._id := 2%N;
                Order.customer := {| Order.name := "A"; Order.address := "X";
                                     Order.phone := "1"; Order.email := "a@b.com" |};
                Order.items := [{| Order.item_id := Some "1";
                                   Order.item_name := Some "Burger";
                                   Order.item_price := Some (Num.ofZ 5);
                                   Order.quantity := Some (Num.ofZ 2) |}];
                Order.subtotal := Num.ofZ 10; Order.deliveryFee := Num.ofZ 0;
                Order.deliveryLocation := None; Order.total := Num.ofZ 10;
                Order.paymentMethod := "cash"; Order.paymentReference := None;
                Order.paymentStatus := Some "pending"; Order.orderReference := None;
                Order.fulfilled := false;
                Order.createdAt := 8%N; Order.updatedAt := 8%N |}).
  destruct (create_then_patch_order Plain.casters 8%N 9%N s (burgerOrder []) o
              s' "000000000000000000000002" true) as [E _].
  - apply createOrder_wellFormed, emptyStore_wellFormed.
  - reflexivity.
  - reflexivity.
  - rewrite E. reflexivity.
Defined.

(** X14.  The last status update wins: what PATCH /api/orders/:id
    answers and stores does not depend on the status updates the order
    has had before. *)
Theorem last_patch_wins now now' s id earlier fulfilled :
  patchOrder now' (snd (patchOrder now s id earlier)) id fulfilled
    = patchOrder now' s id fulfilled.
Proof.
  unfold patchOrder.
  destruct (ObjId.parse id) as [i | ]; simpl; [ | reflexivity ].
  assert (K : forall l,
             match findByIdAndUpdate now i earlier l with
             | Some (_, l') => findByIdAndUpdate now' i fulfilled l'
             | None => findByIdAndUpdate now' i fulfilled l
             end = findByIdAndUpdate now' i fulfilled l).
  { induction l as [ | o r IH]; simpl; [ reflexivity | ].
    destruct (N.eqb (Order._id o) i) eqn:E.
    - simpl. rewrite E. reflexivity.
    - destruct (findByIdAndUpdate now i earlier r) as [[v r'] | ]; simpl; rewrite ?E.
      + rewrite IH. reflexivity.
      + reflexivity. }
  specialize (K (orders s)).
  destruct (findByIdAndUpdate now i earlier (orders s)) as [[v l'] | ] eqn:F; simpl;
    [ rewrite K | reflexivity ].
  destruct (findByIdAndUpdate now' i fulfilled (orders s)) as [[w m] | ] eqn:F';
    [ reflexivity | ].
  apply findByIdAndUpdate_none in F'.
  apply (findByIdAndUpdate_none now i earlier) in F'. congruence.
Qed.

(** ** Cross-origin requests *)

Lemma includes_In o :
  Cors.includes (Some o) = true <-> In o Cors.allowedOrigins.
Proof.
  unfold Cors.includes. rewrite existsb_exists. split.
  - intros [x [I E]]. apply String.eqb_eq in E. subst x. exact I.
  - intros I. exists o. split; [ exact I | apply String.eqb_refl ].
Qed.

Lemma allow_origin_header origin method v :
  In ("Access-Control-Allow-Origin", v) (fst (Cors.middleware origin method)) <->
  (Cors.includes origin || missing origin = true /\
   v = if missing origin then "*" else text origin).
Proof.
  unfold Cors.middleware.
  destruct (String.eqb method "OPTIONS"); simpl;
    destruct (Cors.includes origin || missing origin); simpl; split.
  all: try (intros [E | [E | [E | [E | [E | []]]]]]; try discriminate E;
            inversion E; split; reflexivity).
  all: try (intros [E | [E | [E | [E | []]]]]; discriminate E).
  all: try (intros [_ ->]; left; reflexivity).
  all: intros [E _]; discriminate E.
Qed.

(** X15.  The CORS middleware never allows an origin that is not on its
    list: the Access-Control-Allow-Origin header it sets, if any, names a
    listed origin or is "*", and it is "*" only for a request without
    Origin header.  A request with an Origin header gets the header exactly
    when its origin is listed.  An OPTIONS request, and no other, is ended
    with 204 before any route is tried. *)
Theorem cors_allows_listed_origins_only origin method :
  (forall v,
     In ("Access-Control-Allow-Origin", v) (fst (Cors.middleware origin method)) ->
     (v = "*" /\ missing origin = true) \/
     (v = text origin /\ In v Cors.allowedOrigins)) /\
  (missing origin = false ->
   ((exists v, In ("Access-Control-Allow-Origin", v) (fst (Cors.middleware origin method)))
    <-> In (text origin) Cors.allowedOrigins)) /\
  In ("Access-Control-Allow-Credentials", "true") (fst (Cors.middleware origin method)) /\
  (snd (Cors.middleware origin method) = Some 204 <-> method = "OPTIONS") /\
  (snd (Cors.middleware origin method) = None <-> method <> "OPTIONS").
Proof.
  split; [ | split; [ | split; [ | split ] ] ].
  - intros v H. apply allow_origin_header in H. destruct H as [A ->].
    destruct (missing origin) eqn:Mi; [ left; split; reflexivity | right ].
    split; [ reflexivity | ]. rewrite orb_false_r in A.
    destruct origin as [o | ]; [ | discriminate Mi ]. apply includes_In, A.
  - intros Mi. destruct origin as [o | ]; [ | discriminate Mi ]. split.
    + intros [v H]. apply allow_origin_header in H. destruct H as [A _].
      rewrite Mi, orb_false_r in A. apply includes_In, A.
    + intros I. exists o. apply allow_origin_header. rewrite Mi, orb_false_r.
      split; [ apply includes_In, I | reflexivity ].
  - unfold Cors.middleware. destruct (String.eqb method "OPTIONS"); simpl;
      apply in_or_app; right; left; reflexivity.
  - unfold Cors.middleware. destruct (String.eqb method "OPTIONS") eqn:E; simpl.
    + apply String.eqb_eq in E. split; intros _; [ exact E | reflexivity ].
    + apply String.eqb_neq in E. split; [ discriminate | intros X; contradiction ].
  - unfold Cors.middleware. destruct (String.eqb method "OPTIONS") eqn:E; simpl.
    + apply String.eqb_eq in E. split; [ discriminate | intros X; contradiction ].
    + apply String.eqb_neq in E. split; intros _; [ exact E | reflexivity ].
Qed.

Lemma cors_allows_listed_origins_only_witness :
  (exists v, In ("Access-Control-Allow-Origin", v)
               (fst (Cors.middleware (Some "https://obiggrills.netlify.app") "POST"))) /\
  ~ (exists v, In ("Access-Control-Allow-Origin", v)
                 (fst (Cors.middleware (Some "https://evil.example") "POST"))).
Proof.
  split.
  - apply (proj1 (proj2 (cors_allows_listed_origins_only
                           (Some "https://obiggrills.netlify.app") "POST")) eq_refl).
    right; right; left; reflexivity.
  - intros H.
    apply (proj1 (proj2 (cors_allows_listed_origins_only
                           (Some "https://evil.example") "POST")) eq_refl) in H.
    simpl in H. repeat (destruct H as [H | H]; [ discriminate H | ]). exact H.
Defined.

(** ** Looking a user up *)


